(** * CodeCritic front end: session, OAuth callback and workflow handlers

    A shallow embedding of the client-side logic of the CodeCritic
    front end (TypeScript / React):

    - [lib/auth]   the credential store on top of [localStorage];
    - [lib/api]    the axios instance, its request interceptor and the
                   typed operations built on it;
    - [AuthContext] the session provider ([initAuth], [login], [logout]);
    - [AuthCallback] the OAuth redirect handler ([handleCallback]);
    - [DashboardPage] repository sync and analysis triggering;
    - [AnalysisResultsPage] the severity filter over the issue list.

    Handlers are [async] functions over React state and browser objects.
    They are modelled in a state-and-exception monad over one record
    [App] holding the browser state, the React state of the components
    and the trace of observable effects (requests sent, alerts, console
    errors, navigations).  An [await] of a network call is a call to the
    backend, a parameter of the development.

    Conventions.  A React state setter is an immediate write: no handler
    reads a state variable after setting it.  Each statement is about one
    invocation of a handler; when React runs an effect is not modelled.
    Identifiers and counters are integers ([Z]); strings are byte
    strings, and [toLowerCase] acts on the ASCII letters. *)

From stdpp Require Import base strings gmap list pretty.
From Stdlib Require Import ZArith Ascii String.

Local Open Scope string_scope.
Local Open Scope Z_scope.
Local Open Scope list_scope.

(** ** JavaScript values used by the handlers *)

Module Js.

(** Truthiness of a string: only the empty string is falsy. *)
Definition truthy (s : string) : bool := negb (String.eqb s "").

(** Truthiness of a [string | null] (or [string | undefined]). *)
Definition truthy_opt (o : option string) : bool :=
  match o with
  | Some s => truthy s
  | None => false
  end.

(** [o || d] where [o : string | null | undefined] and [d : string]. *)
Definition or_else (o : option string) (d : string) : string :=
  match o with
  | Some s => if truthy s then s else d
  | None => d
  end.

(** [o || undefined]. *)
Definition or_undefined (o : option string) : option string :=
  match o with
  | Some s => if truthy s then Some s else None
  | None => None
  end.

(** [String.prototype.toLowerCase] on the ASCII range; bytes outside
    [A-Z] are left as they are. *)
Definition lower_ascii (c : ascii) : ascii :=
  let n := nat_of_ascii c in
  if ((65 <=? n)%nat && (n <=? 90)%nat)%bool then ascii_of_nat (n + 32) else c.

Fixpoint toLowerCase (s : string) : string :=
  match s with
  | EmptyString => EmptyString
  | String c s' => String (lower_ascii c) (toLowerCase s')
  end.

(** A number interpolated in a template literal. *)
Definition num_to_string (n : Z) : string := pretty n.

(** The escape [\n] of a string literal. *)
Definition nl : string := String (ascii_of_nat 10) EmptyString.

End Js.

(** ** Data carried by the backend contract *)

Record User := {
  user_id : Z;
  github_id : Z;
  username : string;
  name : option string;
  email : option string;
  avatar_url : option string;
  github_url : option string;
  is_active : bool;
  user_created_at : string
}.

Record AuthToken := {
  access_token : string;
  token_type : string;
  token_user : User
}.

Record Repository := {
  repo_id : Z;
  repo_name : string;
  full_name : string;
  description : option string;
  html_url : string;
  language : option string;
  is_private : bool;
  stars_count : Z;
  forks_count : Z;
  updated_at : string
}.

Record RepoStats := {
  total_repositories : Z;
  total_stars : Z;
  total_forks : Z;
  languages : gmap string Z;
  private_repos : Z;
  public_repos : Z
}.

Record CodeIssue := {
  issue_id : Z;
  severity : string;
  category : string;
  file_path : string;
  line_number : option Z;
  title : string;
  issue_description : string;
  suggestion : option string;
  issue_created_at : string
}.

Record Analysis := {
  analysis_ident : Z;
  repository_id : Z;
  analysis_status : string;
  overall_score : option Z;
  total_issues : Z;
  critical_issues : Z;
  high_issues : Z;
  medium_issues : Z;
  low_issues : Z;
  summary : option string;
  files_analyzed : Z;
  lines_analyzed : Z;
  tokens_used : Z;
  estimated_cost : Z;
  analysis_created_at : string;
  completed_at : option string;
  issues : list CodeIssue
}.

(** Payloads of the responses the handlers destructure. *)
Record LoginUrl := { auth_url : string }.
Record SyncResult := { sync_repositories : list Repository; synced_count : Z }.
Record StartResult := { analysis_id : Z; status : string }.

(** ** Requests, failures and the backend *)

Inductive Method := GET | POST | DELETE.

Inductive ParamVal :=
| PNum (n : Z)
| PStr (s : string).

(** The JSON body of the code exchange; an [undefined] member is not
    serialised. *)
Record CallbackBody := { code : string; state : option string }.

Record Request := {
  method : Method;
  url : string;
  headers : gmap string string;
  params : list (string * ParamVal);
  body : option CallbackBody
}.

(** What a rejected axios promise carries, as far as the handlers look
    into it: [error.response?.data?.detail]. *)
Record ErrorBody := { detail : option string }.
Record ErrorResponse := { http_status : Z; data : option ErrorBody }.
Record AxiosError := { response : option ErrorResponse }.

Definition error_detail (e : AxiosError) : option string :=
  r ← response e; d ← data r; detail d.

Inductive Outcome (A : Type) :=
| Success (d : A)
| Failure (e : AxiosError).
Arguments Success {A} d.
Arguments Failure {A} e.

(** Observable effects, in program order. *)
Inductive Event :=
| EvRequest (r : Request) (resolved : bool)
| EvAlert (msg : string)
| EvConsoleError (msg : string)
| EvRouterPush (href : string).

(** The backend is an external collaborator: one answer per endpoint,
    which may depend on the request as sent and on everything observed
    so far. *)
Record Backend := {
  auth_github_login : list Event -> Request -> Outcome LoginUrl;
  auth_github_callback : list Event -> Request -> Outcome AuthToken;
  auth_me : list Event -> Request -> Outcome User;
  auth_logout : list Event -> Request -> Outcome unit;
  repositories_sync : list Event -> Request -> Outcome SyncResult;
  repositories_list : list Event -> Request -> Outcome (list Repository);
  repositories_get : list Event -> Request -> Outcome Repository;
  repositories_delete : list Event -> Request -> Outcome unit;
  repositories_stats : list Event -> Request -> Outcome RepoStats;
  analysis_analyze : list Event -> Request -> Outcome StartResult;
  analysis_list : list Event -> Request -> Outcome (list Analysis);
  analysis_repository : list Event -> Request -> Outcome (list Analysis);
  analysis_get : list Event -> Request -> Outcome Analysis;
  analysis_issues : list Event -> Request -> Outcome (list CodeIssue);
  analysis_latest : list Event -> Request -> Outcome Analysis;
  analysis_delete : list Event -> Request -> Outcome unit
}.

(** ** Application state *)

Record App := {
  (* browser *)
  window_defined : bool;
  localStorage : gmap string string;
  (* AuthProvider *)
  user : option User;
  auth_loading : bool;
  (* AuthCallback *)
  cb_error : option string;
  (* DashboardPage *)
  repositories : list Repository;
  stats : option RepoStats;
  syncing : bool;
  dash_loading : bool;
  analyzingRepos : gset Z;
  (* trace *)
  log : list Event
}.

Definition with_localStorage (f : gmap string string -> gmap string string) (a : App) : App :=
  {| window_defined := window_defined a; localStorage := f (localStorage a);
     user := user a; auth_loading := auth_loading a; cb_error := cb_error a;
     repositories := repositories a; stats := stats a; syncing := syncing a;
     dash_loading := dash_loading a; analyzingRepos := analyzingRepos a;
     log := log a |}.

Definition with_user (u : option User) (a : App) : App :=
  {| window_defined := window_defined a; localStorage := localStorage a;
     user := u; auth_loading := auth_loading a; cb_error := cb_error a;
     repositories := repositories a; stats := stats a; syncing := syncing a;
     dash_loading := dash_loading a; analyzingRepos := analyzingRepos a;
     log := log a |}.

Definition with_auth_loading (b : bool) (a : App) : App :=
  {| window_defined := window_defined a; localStorage := localStorage a;
     user := user a; auth_loading := b; cb_error := cb_error a;
     repositories := repositories a; stats := stats a; syncing := syncing a;
     dash_loading := dash_loading a; analyzingRepos := analyzingRepos a;
     log := log a |}.

Definition with_cb_error (e : option string) (a : App) : App :=
  {| window_defined := window_defined a; localStorage := localStorage a;
     user := user a; auth_loading := auth_loading a; cb_error := e;
     repositories := repositories a; stats := stats a; syncing := syncing a;
     dash_loading := dash_loading a; analyzingRepos := analyzingRepos a;
     log := log a |}.

Definition with_repositories (rs : list Repository) (a : App) : App :=
  {| window_defined := window_defined a; localStorage := localStorage a;
     user := user a; auth_loading := auth_loading a; cb_error := cb_error a;
     repositories := rs; stats := stats a; syncing := syncing a;
     dash_loading := dash_loading a; analyzingRepos := analyzingRepos a;
     log := log a |}.

Definition with_stats (s : option RepoStats) (a : App) : App :=
  {| window_defined := window_defined a; localStorage := localStorage a;
     user := user a; auth_loading := auth_loading a; cb_error := cb_error a;
     repositories := repositories a; stats := s; syncing := syncing a;
     dash_loading := dash_loading a; analyzingRepos := analyzingRepos a;
     log := log a |}.

Definition with_syncing (b : bool) (a : App) : App :=
  {| window_defined := window_defined a; localStorage := localStorage a;
     user := user a; auth_loading := auth_loading a; cb_error := cb_error a;
     repositories := repositories a; stats := stats a; syncing := b;
     dash_loading := dash_loading a; analyzingRepos := analyzingRepos a;
     log := log a |}.

Definition with_dash_loading (b : bool) (a : App) : App :=
  {| window_defined := window_defined a; localStorage := localStorage a;
     user := user a; auth_loading := auth_loading a; cb_error := cb_error a;
     repositories := repositories a; stats := stats a; syncing := syncing a;
     dash_loading := b; analyzingRepos := analyzingRepos a;
     log := log a |}.

Definition with_analyzingRepos (f : gset Z -> gset Z) (a : App) : App :=
  {| window_defined := window_defined a; localStorage := localStorage a;
     user := user a; auth_loading := auth_loading a; cb_error := cb_error a;
     repositories := repositories a; stats := stats a; syncing := syncing a;
     dash_loading := dash_loading a; analyzingRepos := f (analyzingRepos a);
     log := log a |}.

Definition emit (ev : Event) (a : App) : App :=
  {| window_defined := window_defined a; localStorage := localStorage a;
     user := user a; auth_loading := auth_loading a; cb_error := cb_error a;
     repositories := repositories a; stats := stats a; syncing := syncing a;
     dash_loading := dash_loading a; analyzingRepos := analyzingRepos a;
     log := log a ++ [ev] |}.

(** ** The monad of handlers: state and exceptions *)

Inductive Completion (A : Type) :=
| Normal (v : A)
| Thrown (e : AxiosError).
Arguments Normal {A} v.
Arguments Thrown {A} e.

Definition M (A : Type) : Type := App -> Completion A * App.

#[global] Instance M_ret : MRet M := fun A v a => (Normal v, a).

#[global] Instance M_bind : MBind M := fun A B k m a =>
  match m a with
  | (Normal v, a') => k v a'
  | (Thrown e, a') => (Thrown e, a')
  end.

(** [setX(...)], [alert(...)], [router.push(...)]: state changes that
    cannot throw. *)
Definition modify (f : App -> App) : M unit := fun a => (Normal tt, f a).

Definition gets {A} (f : App -> A) : M A := fun a => (Normal (f a), a).

(** [try { m } catch (error) { h error }] *)
Definition try_catch {A} (m : M A) (h : AxiosError -> M A) : M A := fun a =>
  match m a with
  | (Normal v, a') => (Normal v, a')
  | (Thrown e, a') => h e a'
  end.

(** [try { m } finally { f }]: [f] runs on both exits; an exception of
    [m] is thrown again after it. *)
Definition try_finally {A} (m : M A) (f : M unit) : M A := fun a =>
  match m a with
  | (Normal v, a') =>
      match f a' with
      | (Normal _, a'') => (Normal v, a'')
      | (Thrown e, a'') => (Thrown e, a'')
      end
  | (Thrown e, a') =>
      match f a' with
      | (Normal _, a'') => (Thrown e, a'')
      | (Thrown e', a'') => (Thrown e', a'')
      end
  end.

Definition alert (msg : string) : M unit := modify (emit (EvAlert msg)).
Definition console_error (msg : string) : M unit := modify (emit (EvConsoleError msg)).
Definition router_push (href : string) : M unit := modify (emit (EvRouterPush href)).

(** The state a handler leaves behind, and how it completed. *)
Definition exec {A} (m : M A) (a : App) : App := snd (m a).
Definition completion {A} (m : M A) (a : App) : Completion A := fst (m a).

(** ** lib/auth: the credential store *)

Module Auth.

Definition AUTH_TOKEN_KEY : string := "codecritic_auth_token".

Definition setAuthToken (token : string) : M unit := fun a =>
  if window_defined a
  then (Normal tt, with_localStorage (insert AUTH_TOKEN_KEY token) a)
  else (Normal tt, a).

Definition getAuthToken (a : App) : option string :=
  if window_defined a then localStorage a !! AUTH_TOKEN_KEY else None.

Definition removeAuthToken : M unit := fun a =>
  if window_defined a
  then (Normal tt, with_localStorage (delete AUTH_TOKEN_KEY) a)
  else (Normal tt, a).

Definition getAuthHeaders (a : App) : gmap string string :=
  match getAuthToken a with
  | Some token =>
      if Js.truthy token
      then <["Authorization" := "Bearer " +:+ token]> {["Content-Type" := "application/json"]}
      else {["Content-Type" := "application/json"]}
  | None => {["Content-Type" := "application/json"]}
  end.

End Auth.

(** ** lib/api: the gateway *)

Module Api.

Section Gateway.

Variable be : Backend.

(** [axios.create({ baseURL, headers: {'Content-Type': 'application/json'} })]:
    the headers this code configures.  What the library adds by itself
    (its default [Accept], for one) is not represented: [headers] reads
    as the headers set by the code of this repository, and no statement
    below is about the whole header set of a request on the wire. *)
Definition default_headers : gmap string string :=
  {["Content-Type" := "application/json"]}.

Definition config (m : Method) (u : string)
    (ps : list (string * ParamVal)) (b : option CallbackBody) : Request :=
  {| method := m; url := u; headers := default_headers; params := ps; body := b |}.

Definition set_header (k v : string) (r : Request) : Request :=
  {| method := method r; url := url r; headers := <[k := v]> (headers r);
     params := params r; body := body r |}.

(** [api.interceptors.request.use(...)] *)
Definition request_interceptor (a : App) (cfg : Request) : Request :=
  match Auth.getAuthToken a with
  | Some token =>
      if Js.truthy token
      then set_header "Authorization" ("Bearer " +:+ token) cfg
      else cfg
  | None => cfg
  end.

(** One call through the axios instance: the interceptor runs, the
    request goes out, and the promise resolves with [response.data] or
    rejects. *)
Definition api_call {A} (endpoint : Backend -> list Event -> Request -> Outcome A)
    (cfg : Request) : M A := fun a =>
  let req := request_interceptor a cfg in
  match endpoint be (log a) req with
  | Success d => (Normal d, emit (EvRequest req true) a)
  | Failure e => (Thrown e, emit (EvRequest req false) a)
  end.

Definition githubLogin : M LoginUrl :=
  api_call auth_github_login (config GET "/api/v1/auth/github/login" [] None).

Definition githubCallback (c : string) (st : option string) : M AuthToken :=
  api_call auth_github_callback
    (config POST "/api/v1/auth/github/callback" [] (Some {| code := c; state := st |})).

Definition getCurrentUser : M User :=
  api_call auth_me (config GET "/api/v1/auth/me" [] None).

Definition logout : M unit :=
  api_call auth_logout (config POST "/api/v1/auth/logout" [] None).

Definition syncRepositories : M SyncResult :=
  api_call repositories_sync (config POST "/api/v1/repositories/sync" [] None).

Definition listRepositories (skip limit : option Z) : M (list Repository) :=
  api_call repositories_list
    (config GET "/api/v1/repositories/list"
       [("skip", PNum (default 0 skip)); ("limit", PNum (default 100 limit))] None).

Definition getRepository (repoId : Z) : M Repository :=
  api_call repositories_get
    (config GET ("/api/v1/repositories/" +:+ Js.num_to_string repoId) [] None).

Definition deleteRepository (repoId : Z) : M unit :=
  api_call repositories_delete
    (config DELETE ("/api/v1/repositories/" +:+ Js.num_to_string repoId) [] None).

Definition getRepositoryStats : M RepoStats :=
  api_call repositories_stats (config GET "/api/v1/repositories/stats/summary" [] None).

Definition startAnalysis (repositoryId : Z) : M StartResult :=
  api_call analysis_analyze
    (config POST ("/api/v1/analysis/analyze/" +:+ Js.num_to_string repositoryId) [] None).

Definition listAnalyses (skip limit : option Z) : M (list Analysis) :=
  api_call analysis_list
    (config GET "/api/v1/analysis/list"
       [("skip", PNum (default 0 skip)); ("limit", PNum (default 50 limit))] None).

Definition getRepositoryAnalyses (repositoryId : Z) : M (list Analysis) :=
  api_call analysis_repository
    (config GET ("/api/v1/analysis/repository/" +:+ Js.num_to_string repositoryId) [] None).

Definition getAnalysis (analysisId : Z) : M Analysis :=
  api_call analysis_get
    (config GET ("/api/v1/analysis/" +:+ Js.num_to_string analysisId) [] None).

Definition getAnalysisIssues (analysisId : Z) (sev : option string) : M (list CodeIssue) :=
  api_call analysis_issues
    (config GET ("/api/v1/analysis/" +:+ Js.num_to_string analysisId +:+ "/issues")
       (match sev with
        | Some s => if Js.truthy s then [("severity", PStr s)] else []
        | None => []
        end) None).

Definition getLatestAnalysis (repositoryId : Z) : M Analysis :=
  api_call analysis_latest
    (config GET ("/api/v1/analysis/repository/" +:+ Js.num_to_string repositoryId +:+ "/latest")
       [] None).

Definition deleteAnalysis (analysisId : Z) : M unit :=
  api_call analysis_delete
    (config DELETE ("/api/v1/analysis/" +:+ Js.num_to_string analysisId) [] None).

End Gateway.

End Api.

(** ** contexts/AuthContext: the session provider *)

Module AuthContext.

Section AuthProvider.

Variable be : Backend.

(** The body of the mount effect. *)
Definition initAuth : M unit :=
  token ← gets Auth.getAuthToken;
  (if Js.truthy_opt token
   then try_catch
          (userData ← Api.getCurrentUser be;
           modify (with_user (Some userData)))
          (fun error =>
             console_error "Failed to get current user:";;
             Auth.removeAuthToken)
   else mret tt);;
  modify (with_auth_loading false).

Definition login (tokenData : AuthToken) : M unit :=
  Auth.setAuthToken (access_token tokenData);;
  modify (with_user (Some (token_user tokenData))).

Definition logout : M unit :=
  try_catch (Api.logout be) (fun error => console_error "Logout error:");;
  Auth.removeAuthToken;;
  modify (with_user None).

(** [isAuthenticated: !!user] *)
Definition isAuthenticated (a : App) : bool :=
  match user a with
  | Some _ => true
  | None => false
  end.

End AuthProvider.

End AuthContext.

(** ** app/auth/callback: the OAuth redirect handler *)

Module AuthCallback.

(** [URLSearchParams.get]: the first value under the name, or [null]. *)
Fixpoint searchParams_get (sp : list (string * string)) (k : string) : option string :=
  match sp with
  | [] => None
  | (k', v) :: rest => if String.eqb k' k then Some v else searchParams_get rest k
  end.

Section Handler.

Variable be : Backend.

Definition setError (msg : string) : M unit := modify (with_cb_error (Some msg)).

Definition handleCallback (searchParams : list (string * string)) : M unit :=
  let code := searchParams_get searchParams "code" in
  let state := searchParams_get searchParams "state" in
  let errorParam := searchParams_get searchParams "error" in
  if Js.truthy_opt errorParam
  then setError "GitHub authentication was denied"
  else
    match code with
    | Some c =>
        if Js.truthy c
        then try_catch
               (tokenData ← Api.githubCallback be c (Js.or_undefined state);
                AuthContext.login tokenData;;
                router_push "/dashboard")
               (fun error =>
                  console_error "Callback error:";;
                  setError (Js.or_else (error_detail error) "Authentication failed"))
        else setError "No authorization code received"
    | None => setError "No authorization code received"
    end.

End Handler.

End AuthCallback.

(** ** app/dashboard: repository sync and analysis triggering *)

Module Dashboard.

Section Handlers.

Variable be : Backend.

Definition loadRepositories : M unit :=
  try_finally
    (try_catch
       (modify (with_dash_loading true);;
        repos ← Api.listRepositories be None None;
        modify (with_repositories repos))
       (fun error => console_error "Failed to load repositories:"))
    (modify (with_dash_loading false)).

Definition loadStats : M unit :=
  try_catch
    (repoStats ← Api.getRepositoryStats be;
     modify (with_stats (Some repoStats)))
    (fun error => console_error "Failed to load stats:").

Definition handleSyncRepositories : M unit :=
  try_finally
    (try_catch
       (modify (with_syncing true);;
        result ← Api.syncRepositories be;
        modify (with_repositories (sync_repositories result));;
        loadStats;;
        alert ("Successfully synced " +:+ Js.num_to_string (synced_count result)
               +:+ " repositories!"))
       (fun error =>
          console_error "Failed to sync repositories:";;
          alert (Js.or_else (error_detail error) "Failed to sync repositories")))
    (modify (with_syncing false)).

(** Later version of the trigger (second copy in the file). *)
Definition handleAnalyzeRepository (repoId : Z) (repoName : string) : M unit :=
  try_finally
    (try_catch
       (modify (with_analyzingRepos (fun prev => prev ∪ {[repoId]}));;
        result ← Api.startAnalysis be repoId;
        if String.eqb (status result) "completed"
        then router_push ("/analysis/results?id=" +:+ Js.num_to_string (analysis_id result))
        else if String.eqb (status result) "failed"
        then alert ("❌ Analysis failed for " +:+ repoName)
        else router_push ("/analysis/results?id=" +:+ Js.num_to_string (analysis_id result)))
       (fun error =>
          console_error "Failed to start analysis:";;
          let errorMessage := Js.or_else (error_detail error) "Failed to start analysis" in
          alert ("❌ Error: " +:+ errorMessage)))
    (modify (with_analyzingRepos (fun prev => prev ∖ {[repoId]}))).

End Handlers.

End Dashboard.

(** The first copy of the dashboard in the file has the same
    [loadRepositories], [loadStats] and [handleSyncRepositories]; its
    analysis trigger only notifies. *)
Module DashboardV1.

Section Handlers.

Variable be : Backend.

Definition handleAnalyzeRepository (repoId : Z) (repoName : string) : M unit :=
  try_finally
    (try_catch
       (modify (with_analyzingRepos (fun prev => prev ∪ {[repoId]}));;
        result ← Api.startAnalysis be repoId;
        if String.eqb (status result) "completed"
        then alert ("✅ Analysis completed for " +:+ repoName +:+ "!" +:+ Js.nl +:+ Js.nl
                    +:+ "Analysis ID: " +:+ Js.num_to_string (analysis_id result))
        else if String.eqb (status result) "failed"
        then alert ("❌ Analysis failed for " +:+ repoName)
        else alert ("⏳ Analysis in progress for " +:+ repoName +:+ "..."))
       (fun error =>
          console_error "Failed to start analysis:";;
          let errorMessage := Js.or_else (error_detail error) "Failed to start analysis" in
          alert ("❌ Error: " +:+ errorMessage)))
    (modify (with_analyzingRepos (fun prev => prev ∖ {[repoId]}))).

End Handlers.

End DashboardV1.

(** ** app/analysis/results: the issue filter *)

Module Results.

(** The value recomputed on every render from the fetched analysis and
    the selected severity. *)
Definition filteredIssues (analysis : option Analysis) (selectedSeverity : string)
    : list CodeIssue :=
  match analysis with
  | Some an =>
      List.filter
        (fun issue =>
           String.eqb selectedSeverity "all"
           || String.eqb (Js.toLowerCase (severity issue)) selectedSeverity)
        (issues an)
  | None => []
  end.

(** The selectors the severity buttons can set. *)
Definition selectors : list string := ["all"; "critical"; "high"; "medium"; "low"].

End Results.

(** ** Pages with state of their own

    The login page and the results page keep state that no other
    component reads.  Their handlers run in the same kind of monad over
    a record that holds the application next to the page's state. *)

Module View.

Definition MV (V A : Type) : Type := V -> Completion A * V.

#[global] Instance MV_ret {V} : MRet (MV V) := fun A x v => (Normal x, v).

#[global] Instance MV_bind {V} : MBind (MV V) := fun A B k m v =>
  match m v with
  | (Normal x, v') => k x v'
  | (Thrown e, v') => (Thrown e, v')
  end.

Definition modify {V} (f : V -> V) : MV V unit := fun v => (Normal tt, f v).

(** A handler of the application, run on the application inside the page. *)
Definition lift {V A} (get : V -> App) (put : App -> V -> V) (m : M A) : MV V A := fun v =>
  match m (get v) with
  | (c, a') => (c, put a' v)
  end.

Definition try_catch {V A} (m : MV V A) (h : AxiosError -> MV V A) : MV V A := fun v =>
  match m v with
  | (Normal x, v') => (Normal x, v')
  | (Thrown e, v') => h e v'
  end.

Definition try_finally {V A} (m : MV V A) (f : MV V unit) : MV V A := fun v =>
  match m v with
  | (Normal x, v') =>
      match f v' with
      | (Normal _, v'') => (Normal x, v'')
      | (Thrown e, v'') => (Thrown e, v'')
      end
  | (Thrown e, v') =>
      match f v' with
      | (Normal _, v'') => (Thrown e, v'')
      | (Thrown e', v'') => (Thrown e', v'')
      end
  end.

End View.

(** ** app/login: starting the OAuth flow *)

Module LoginPage.

Record LoginView := {
  login_app : App;
  login_loading : bool;
  (* [window.location.href], once the handler has assigned it *)
  location_href : option string
}.

Definition with_app (a : App) (v : LoginView) : LoginView :=
  {| login_app := a; login_loading := login_loading v; location_href := location_href v |}.

Definition setLoading (b : bool) (v : LoginView) : LoginView :=
  {| login_app := login_app v; login_loading := b; location_href := location_href v |}.

Definition set_location (u : string) (v : LoginView) : LoginView :=
  {| login_app := login_app v; login_loading := login_loading v; location_href := Some u |}.

Section Handler.

Variable be : Backend.

Definition handleGitHubLogin : View.MV LoginView unit :=
  View.try_catch
    (View.modify (setLoading true);;
     r ← View.lift login_app with_app (Api.githubLogin be);
     View.modify (set_location (auth_url r)))
    (fun error =>
       View.lift login_app with_app (console_error "GitHub login error:");;
       View.modify (setLoading false)).

End Handler.

End LoginPage.

(** ** Route guards: the effects that redirect *)

Module Guards.

(** Home page: [if (!loading && isAuthenticated) router.push('/dashboard')]. *)
Definition homeRedirect : M unit := fun a =>
  if negb (auth_loading a) && AuthContext.isAuthenticated a
  then router_push "/dashboard" a
  else (Normal tt, a).

(** Dashboard and results page:
    [if (!authLoading && !user) router.push('/login')]. *)
Definition requireUser : M unit := fun a =>
  if negb (auth_loading a) && match user a with Some _ => false | None => true end
  then router_push "/login" a
  else (Normal tt, a).

End Guards.

(** ** app/analysis/results: loading and rendering helpers *)

Module ResultsPage.

(** [parseInt(string)] without a radix: leading white space is skipped,
    a sign is read, a [0x] prefix selects base 16, and the longest run
    of digits is the value; no digit at all gives [NaN], here [None].
    White space is the ASCII one; the value is exact, as the one of
    JavaScript is for integers up to 2^53. *)
Definition is_space (c : ascii) : bool :=
  let n := nat_of_ascii c in
  ((9 <=? n)%nat && (n <=? 13)%nat) || (n =? 32)%nat.

Fixpoint trimStart (s : string) : string :=
  match s with
  | String c s' => if is_space c then trimStart s' else s
  | EmptyString => EmptyString
  end.

Definition digit_value (c : ascii) : option N :=
  let n := N_of_ascii c in
  if ((48 <=? n) && (n <=? 57))%N then Some (n - 48)%N
  else if ((97 <=? n) && (n <=? 122))%N then Some (n - 87)%N
  else if ((65 <=? n) && (n <=? 90))%N then Some (n - 55)%N
  else None.

Definition digit_in (radix : N) (c : ascii) : option N :=
  match digit_value c with
  | Some d => if (d <? radix)%N then Some d else None
  | None => None
  end.

Fixpoint digits_prefix (radix : N) (acc : option N) (s : string) : option N :=
  match s with
  | String c s' =>
      match digit_in radix c with
      | Some d => digits_prefix radix (Some (default 0 acc * radix + d)%N) s'
      | None => acc
      end
  | EmptyString => acc
  end.

Definition parseInt (s : string) : option Z :=
  let s0 := trimStart s in
  let '(sign, s1) :=
    match s0 with
    | String "-" r => (-1, r)
    | String "+" r => (1, r)
    | _ => (1, s0)
    end in
  let '(radix, s2) :=
    match s1 with
    | String "0" (String "x" r) => (16%N, r)
    | String "0" (String "X" r) => (16%N, r)
    | _ => (10%N, s1)
    end in
  match digits_prefix radix None s2 with
  | Some v => Some (sign * Z.of_N v)
  | None => None
  end.

Record ResultsView := {
  results_app : App;
  analysis : option Analysis;
  results_loading : bool;
  results_error : option string;
  selectedSeverity : string
}.

Definition with_app (a : App) (v : ResultsView) : ResultsView :=
  {| results_app := a; analysis := analysis v; results_loading := results_loading v;
     results_error := results_error v; selectedSeverity := selectedSeverity v |}.

Definition setAnalysis (d : option Analysis) (v : ResultsView) : ResultsView :=
  {| results_app := results_app v; analysis := d; results_loading := results_loading v;
     results_error := results_error v; selectedSeverity := selectedSeverity v |}.

Definition setLoading (b : bool) (v : ResultsView) : ResultsView :=
  {| results_app := results_app v; analysis := analysis v; results_loading := b;
     results_error := results_error v; selectedSeverity := selectedSeverity v |}.

Definition setError (e : option string) (v : ResultsView) : ResultsView :=
  {| results_app := results_app v; analysis := analysis v;
     results_loading := results_loading v; results_error := e;
     selectedSeverity := selectedSeverity v |}.

Definition setSelectedSeverity (s : string) (v : ResultsView) : ResultsView :=
  {| results_app := results_app v; analysis := analysis v;
     results_loading := results_loading v; results_error := results_error v;
     selectedSeverity := s |}.

Section Handlers.

Variable be : Backend.

(** [getAnalysis(n)] for the number [parseInt] returned; [NaN] is
    interpolated in the path as it prints. *)
Definition getAnalysis_number (n : option Z) : M Analysis :=
  match n with
  | Some analysisId => Api.getAnalysis be analysisId
  | None => Api.api_call be analysis_get (Api.config GET "/api/v1/analysis/NaN" [] None)
  end.

Definition loadAnalysis (analysisId : string) : View.MV ResultsView unit :=
  View.try_finally
    (View.try_catch
       (View.modify (setLoading true);;
        d ← View.lift results_app with_app (getAnalysis_number (parseInt analysisId));
        View.modify (setAnalysis (Some d)))
       (fun error =>
          View.lift results_app with_app (console_error "Failed to load analysis:");;
          View.modify (setError (Some (Js.or_else (error_detail error)
                                         "Failed to load analysis results")))))
    (View.modify (setLoading false)).

(** The effect on [analysisId] and [user]:
    [if (analysisId && user) loadAnalysis()]. *)
Definition loadEffect (analysisId : option string) : View.MV ResultsView unit := fun v =>
  match analysisId, user (results_app v) with
  | Some i, Some _ => if Js.truthy i then loadAnalysis i v else (Normal tt, v)
  | _, _ => (Normal tt, v)
  end.

End Handlers.

Definition getSeverityColor (sev : string) : string :=
  let s := Js.toLowerCase sev in
  if String.eqb s "critical" then "text-red-700 bg-red-100 border-red-300"
  else if String.eqb s "high" then "text-orange-700 bg-orange-100 border-orange-300"
  else if String.eqb s "medium" then "text-yellow-700 bg-yellow-100 border-yellow-300"
  else if String.eqb s "low" then "text-blue-700 bg-blue-100 border-blue-300"
  else "text-gray-700 bg-gray-100 border-gray-300".

(** The issues shown on the page. *)
Definition shown (v : ResultsView) : list CodeIssue :=
  Results.filteredIssues (analysis v) (selectedSeverity v).

End ResultsPage.

(** ** Reading the trace *)

Fixpoint sent_requests (l : list Event) : list Request :=
  match l with
  | [] => []
  | EvRequest r _ :: l' => r :: sent_requests l'
  | _ :: l' => sent_requests l'
  end.

Fixpoint navigations (l : list Event) : list string :=
  match l with
  | [] => []
  | EvRouterPush h :: l' => h :: navigations l'
  | _ :: l' => navigations l'
  end.

Fixpoint alerts (l : list Event) : list string :=
  match l with
  | [] => []
  | EvAlert m :: l' => m :: alerts l'
  | _ :: l' => alerts l'
  end.

(** What a handler added to the trace. *)
Definition new_events (a a' : App) : list Event := drop (List.length (log a)) (log a').

(** The session as the rest of the application sees it. *)
Inductive SessionState := Unknown | Unauthenticated | Authenticated.

Definition sessionState (a : App) : SessionState :=
  if auth_loading a then Unknown
  else if AuthContext.isAuthenticated a then Authenticated
  else Unauthenticated.

(** The provider right after mount: [useState(null)], [useState(true)]. *)
Definition at_startup (a : App) : Prop := user a = None /\ auth_loading a = true.

(** Every operation the gateway exports, with its arguments. *)
Inductive Operation :=
| OpGithubLogin
| OpGithubCallback (c : string) (st : option string)
| OpGetCurrentUser
| OpLogout
| OpSyncRepositories
| OpListRepositories (skip limit : option Z)
| OpGetRepository (repoId : Z)
| OpDeleteRepository (repoId : Z)
| OpGetRepositoryStats
| OpStartAnalysis (repositoryId : Z)
| OpListAnalyses (skip limit : option Z)
| OpGetRepositoryAnalyses (repositoryId : Z)
| OpGetAnalysis (analysisId : Z)
| OpGetAnalysisIssues (analysisId : Z) (sev : option string)
| OpGetLatestAnalysis (repositoryId : Z)
| OpDeleteAnalysis (analysisId : Z).

(** The state after one operation, whatever it returned. *)
Definition perform (be : Backend) (op : Operation) (a : App) : App :=
  match op with
  | OpGithubLogin => exec (Api.githubLogin be) a
  | OpGithubCallback c st => exec (Api.githubCallback be c st) a
  | OpGetCurrentUser => exec (Api.getCurrentUser be) a
  | OpLogout => exec (Api.logout be) a
  | OpSyncRepositories => exec (Api.syncRepositories be) a
  | OpListRepositories skip limit => exec (Api.listRepositories be skip limit) a
  | OpGetRepository repoId => exec (Api.getRepository be repoId) a
  | OpDeleteRepository repoId => exec (Api.deleteRepository be repoId) a
  | OpGetRepositoryStats => exec (Api.getRepositoryStats be) a
  | OpStartAnalysis repositoryId => exec (Api.startAnalysis be repositoryId) a
  | OpListAnalyses skip limit => exec (Api.listAnalyses be skip limit) a
  | OpGetRepositoryAnalyses repositoryId => exec (Api.getRepositoryAnalyses be repositoryId) a
  | OpGetAnalysis analysisId => exec (Api.getAnalysis be analysisId) a
  | OpGetAnalysisIssues analysisId sev => exec (Api.getAnalysisIssues be analysisId sev) a
  | OpGetLatestAnalysis repositoryId => exec (Api.getLatestAnalysis be repositoryId) a
  | OpDeleteAnalysis analysisId => exec (Api.deleteAnalysis be analysisId) a
  end.

(** ** Vocabulary of the statements *)

(** A rejected identity request among the events a run added. *)
Definition identity_fetch_failed (a a' : App) : Prop :=
  exists r, url r = "/api/v1/auth/me" /\ In (EvRequest r false) (new_events a a').

(** The request of the code exchange, as it leaves the client. *)
Definition exchange_request (a : App) (c : string) (st : option string) : Request :=
  Api.request_interceptor a
    (Api.config POST "/api/v1/auth/github/callback" [] (Some {| code := c; state := st |})).

(** The requests of the dashboard, as they leave the client. *)
Definition sync_request (a : App) : Request :=
  Api.request_interceptor a (Api.config POST "/api/v1/repositories/sync" [] None).

Definition stats_request (a : App) : Request :=
  Api.request_interceptor a (Api.config GET "/api/v1/repositories/stats/summary" [] None).

Definition analyze_request (a : App) (repoId : Z) : Request :=
  Api.request_interceptor a
    (Api.config POST ("/api/v1/analysis/analyze/" +:+ Js.num_to_string repoId) [] None).

(** What the later trigger does with an answer. *)
Definition routed (repoName : string) (result : StartResult) : Event :=
  if String.eqb (status result) "failed"
  then EvAlert ("❌ Analysis failed for " +:+ repoName)
  else EvRouterPush ("/analysis/results?id=" +:+ Js.num_to_string (analysis_id result)).

(** What the earlier trigger tells the user about an answer. *)
Definition notified (repoName : string) (result : StartResult) : string :=
  if String.eqb (status result) "completed"
  then "✅ Analysis completed for " +:+ repoName +:+ "!" +:+ Js.nl +:+ Js.nl
       +:+ "Analysis ID: " +:+ Js.num_to_string (analysis_id result)
  else if String.eqb (status result) "failed"
  then "❌ Analysis failed for " +:+ repoName
  else "⏳ Analysis in progress for " +:+ repoName +:+ "...".

(** Equality of two strings up to the case of their letters. *)
Definition equal_ignoring_case (s t : string) : bool :=
  String.eqb (Js.toLowerCase s) (Js.toLowerCase t).

(** ** Sample data *)

Module Sample.

Definition octocat : User :=
  {| user_id := 1; github_id := 583231; username := "octocat"; name := None;
     email := None; avatar_url := None; github_url := None; is_active := true;
     user_created_at := "2025-01-01T00:00:00Z" |}.

Definition token (scheme : string) : AuthToken :=
  {| access_token := "tok123"; token_type := scheme; token_user := octocat |}.

Definition repo : Repository :=
  {| repo_id := 42; repo_name := "hello"; full_name := "octocat/hello";
     description := None; html_url := "https://github.com/octocat/hello";
     language := Some "TypeScript"; is_private := false; stars_count := 3;
     forks_count := 1; updated_at := "2025-01-02T00:00:00Z" |}.

Definition repo_stats : RepoStats :=
  {| total_repositories := 1; total_stars := 3; total_forks := 1;
     languages := {["TypeScript" := 1]}; private_repos := 0; public_repos := 1 |}.

Definition issue (i : Z) (sev : string) : CodeIssue :=
  {| issue_id := i; severity := sev; category := "style"; file_path := "a.ts";
     line_number := None; title := "t"; issue_description := "d";
     suggestion := None; issue_created_at := "2025-01-03T00:00:00Z" |}.

(** A rejection with no response (transport failure), and one with a
    backend detail. *)
Definition network_error : AxiosError := {| response := None |}.

Definition rejected (msg : string) : AxiosError :=
  {| response := Some {| http_status := 429;
                         data := Some {| detail := Some msg |} |} |}.

(** A backend with fixed answers on the endpoints the handlers use;
    the others are down. *)
Definition backend (cb : Outcome AuthToken) (me : Outcome User) (lo : Outcome unit)
    (sy : Outcome SyncResult) (st : Outcome RepoStats) (an : Outcome StartResult)
    : Backend :=
  {| auth_github_login := fun _ _ => Failure network_error;
     auth_github_callback := fun _ _ => cb;
     auth_me := fun _ _ => me;
     auth_logout := fun _ _ => lo;
     repositories_sync := fun _ _ => sy;
     repositories_list := fun _ _ => Failure network_error;
     repositories_get := fun _ _ => Failure network_error;
     repositories_delete := fun _ _ => Failure network_error;
     repositories_stats := fun _ _ => st;
     analysis_analyze := fun _ _ => an;
     analysis_list := fun _ _ => Failure network_error;
     analysis_repository := fun _ _ => Failure network_error;
     analysis_get := fun _ _ => Failure network_error;
     analysis_issues := fun _ _ => Failure network_error;
     analysis_latest := fun _ _ => Failure network_error;
     analysis_delete := fun _ _ => Failure network_error |}.

Definition down : Backend :=
  backend (Failure network_error) (Failure network_error) (Failure network_error)
          (Failure network_error) (Failure network_error) (Failure network_error).

Definition answering (an : StartResult) : Backend :=
  backend (Success (token "bearer")) (Success octocat) (Success tt)
          (Success {| sync_repositories := [repo]; synced_count := 1 |})
          (Success repo_stats) (Success an).

Definition sync_rejected (e : AxiosError) : Backend :=
  backend (Success (token "bearer")) (Success octocat) (Success tt)
          (Failure e) (Success repo_stats) (Failure network_error).

(** The application right after mount, over a given store. *)
Definition mounted (store : gmap string string) : App :=
  {| window_defined := true; localStorage := store; user := None;
     auth_loading := true; cb_error := None; repositories := []; stats := None;
     syncing := false; dash_loading := true; analyzingRepos := ∅; log := [] |}.

Definition signed_in (tok : string) : App :=
  {| window_defined := true; localStorage := {[Auth.AUTH_TOKEN_KEY := tok]};
     user := Some octocat; auth_loading := false; cb_error := None;
     repositories := [repo]; stats := None; syncing := false;
     dash_loading := false; analyzingRepos := ∅; log := [] |}.

End Sample.

(** ** Vocabulary of the further statements *)

(** A write to the credential store, and a sequence of them. *)
Inductive StoreOp :=
| Put (token : string)
| Clear.

Definition store_op (op : StoreOp) : M unit :=
  match op with
  | Put token => Auth.setAuthToken token
  | Clear => Auth.removeAuthToken
  end.

Fixpoint store_ops (ops : list StoreOp) (a : App) : App :=
  match ops with
  | [] => a
  | op :: rest => store_ops rest (exec (store_op op) a)
  end.

(** The part of the application the session provider owns, together
    with the browser's store. *)
Definition same_session (a a' : App) : Prop :=
  window_defined a' = window_defined a
  /\ localStorage a' = localStorage a
  /\ user a' = user a
  /\ auth_loading a' = auth_loading a.

(** The part of the application the dashboard owns. *)
Definition same_dashboard (a a' : App) : Prop :=
  repositories a' = repositories a
  /\ stats a' = stats a
  /\ syncing a' = syncing a
  /\ dash_loading a' = dash_loading a
  /\ analyzingRepos a' = analyzingRepos a.

(** The value of the [Authorization] header of a request. *)
Definition authorization (r : Request) : option string := headers r !! "Authorization".

(** The issues whose severity, in lower case, is none of the four. *)
Definition unclassified (l : list CodeIssue) : list CodeIssue :=
  List.filter
    (fun issue =>
       let s := Js.toLowerCase (severity issue) in
       negb (String.eqb s "critical" || String.eqb s "high"
             || String.eqb s "medium" || String.eqb s "low"))
    l.

(** Further sample data. *)
Module Scenario.

Definition server_side : App :=
  {| window_defined := false; localStorage := ∅; user := None; auth_loading := true;
     cb_error := None; repositories := []; stats := None; syncing := false;
     dash_loading := true; analyzingRepos := ∅; log := [] |}.

(** A backend that answers the login endpoint and lists one repository. *)
Definition github : Backend :=
  {| auth_github_login := fun _ _ =>
       Success {| auth_url := "https://github.com/login/oauth/authorize?client_id=abc" |};
     auth_github_callback := fun _ _ => Success (Sample.token "bearer");
     auth_me := fun _ _ => Success Sample.octocat;
     auth_logout := fun _ _ => Success tt;
     repositories_sync := fun _ _ =>
       Success {| sync_repositories := [Sample.repo]; synced_count := 1 |};
     repositories_list := fun _ _ => Success [Sample.repo];
     repositories_get := fun _ _ => Success Sample.repo;
     repositories_delete := fun _ _ => Success tt;
     repositories_stats := fun _ _ => Success Sample.repo_stats;
     analysis_analyze := fun _ _ => Success {| analysis_id := 7; status := "pending" |};
     analysis_list := fun _ _ => Success [];
     analysis_repository := fun _ _ => Success [];
     analysis_get := fun _ _ => Failure (Sample.rejected "Analysis not found");
     analysis_issues := fun _ _ => Success [];
     analysis_latest := fun _ _ => Failure Sample.network_error;
     analysis_delete := fun _ _ => Success tt |}.

Definition report (l : list CodeIssue) : Analysis :=
  {| analysis_ident := 7; repository_id := 42; analysis_status := "completed";
     overall_score := Some 80; total_issues := Z.of_nat (List.length l);
     critical_issues := 0; high_issues := 0; medium_issues := 0; low_issues := 0;
     summary := None; files_analyzed := 1; lines_analyzed := 10; tokens_used := 100;
     estimated_cost := 0; analysis_created_at := "2025-01-03T00:00:00Z";
     completed_at := None; issues := l |}.

Definition login_page : LoginPage.LoginView :=
  {| LoginPage.login_app := Sample.mounted ∅; LoginPage.login_loading := false;
     LoginPage.location_href := None |}.

Definition results_page (a : App) (err : option string) : ResultsPage.ResultsView :=
  {| ResultsPage.results_app := a; ResultsPage.analysis := None;
     ResultsPage.results_loading := true; ResultsPage.results_error := err;
     ResultsPage.selectedSeverity := "all" |}.

End Scenario.

(** * Properties *)

(** ** The gateway *)

Lemma api_call_run be {A} (endpoint : Backend -> list Event -> Request -> Outcome A)
    (cfg : Request) (a : App) :
  Api.api_call be endpoint cfg a =
    match endpoint be (log a) (Api.request_interceptor a cfg) with
    | Success d => (Normal d, emit (EvRequest (Api.request_interceptor a cfg) true) a)
    | Failure e => (Thrown e, emit (EvRequest (Api.request_interceptor a cfg) false) a)
    end.
Proof. reflexivity. Qed.

Lemma api_call_exec be {A} (endpoint : Backend -> list Event -> Request -> Outcome A)
    (cfg : Request) (a : App) :
  exists ok, exec (Api.api_call be endpoint cfg) a
             = emit (EvRequest (Api.request_interceptor a cfg) ok) a.
Proof.
  unfold exec. rewrite api_call_run.
  destruct (endpoint be (log a) _); [exists true | exists false]; reflexivity.
Qed.

Lemma interceptor_keeps_config (a : App) (cfg : Request) :
  method (Api.request_interceptor a cfg) = method cfg
  /\ url (Api.request_interceptor a cfg) = url cfg
  /\ params (Api.request_interceptor a cfg) = params cfg
  /\ body (Api.request_interceptor a cfg) = body cfg.
Proof.
  unfold Api.request_interceptor.
  destruct (Auth.getAuthToken a) as [tok|]; [destruct (Js.truthy tok)|]; auto.
Qed.

Lemma truthy_spec (s : string) : Js.truthy s = true <-> s <> "".
Proof.
  unfold Js.truthy. destruct (String.eqb_spec s ""); simpl; split; congruence.
Qed.

Lemma truthy_false (s : string) : Js.truthy s = false <-> s = "".
Proof.
  unfold Js.truthy. destruct (String.eqb_spec s ""); simpl; split; congruence.
Qed.

Lemma interceptor_bearer (a : App) (cfg : Request) (tok : string) :
  Auth.getAuthToken a = Some tok -> tok <> "" ->
  headers (Api.request_interceptor a cfg)
  = <["Authorization" := "Bearer " +:+ tok]> (headers cfg).
Proof.
  intros Ht Hne. unfold Api.request_interceptor. rewrite Ht.
  apply truthy_spec in Hne. rewrite Hne. reflexivity.
Qed.

Lemma interceptor_anonymous (a : App) (cfg : Request) :
  Auth.getAuthToken a = None \/ Auth.getAuthToken a = Some "" ->
  Api.request_interceptor a cfg = cfg.
Proof.
  intros [Ht|Ht]; unfold Api.request_interceptor; rewrite Ht; reflexivity.
Qed.

(** Each operation is one call through the axios instance with a
    configuration that carries the default headers only. *)
Lemma perform_one_call be (op : Operation) :
  exists cfg, headers cfg = Api.default_headers /\
    forall a, exists ok,
      perform be op a = emit (EvRequest (Api.request_interceptor a cfg) ok) a.
Proof.
  destruct op; simpl; eexists (Api.config _ _ _ _); (split; [reflexivity|]);
    intros a; apply api_call_exec.
Qed.

(** C10. Called without arguments, [listRepositories] asks for the page
    skip=0, limit=100 and [listAnalyses] for skip=0, limit=50, whatever
    the backend and the state of the application. *)
Theorem list_defaults (be : Backend) (a : App) :
  (exists ok,
     exec (Api.listRepositories be None None) a
     = emit (EvRequest
               (Api.request_interceptor a
                  (Api.config GET "/api/v1/repositories/list"
                     [("skip", PNum 0); ("limit", PNum 100)] None)) ok) a)
  /\ (exists ok,
     exec (Api.listAnalyses be None None) a
     = emit (EvRequest
               (Api.request_interceptor a
                  (Api.config GET "/api/v1/analysis/list"
                     [("skip", PNum 0); ("limit", PNum 50)] None)) ok) a)
  /\ (forall r ok, In (EvRequest r ok) (log (exec (Api.listRepositories be None None) a)) ->
        In (EvRequest r ok) (log a)
        \/ params r = [("skip", PNum 0); ("limit", PNum 100)])
  /\ (forall r ok, In (EvRequest r ok) (log (exec (Api.listAnalyses be None None) a)) ->
        In (EvRequest r ok) (log a)
        \/ params r = [("skip", PNum 0); ("limit", PNum 50)]).
Proof.
  assert (Hrepos := api_call_exec be repositories_list
            (Api.config GET "/api/v1/repositories/list"
               [("skip", PNum 0); ("limit", PNum 100)] None) a).
  assert (Hans := api_call_exec be analysis_list
            (Api.config GET "/api/v1/analysis/list"
               [("skip", PNum 0); ("limit", PNum 50)] None) a).
  split; [exact Hrepos|]. split; [exact Hans|].
  destruct Hrepos as [ok1 H1], Hans as [ok2 H2].
  unfold Api.listRepositories, Api.listAnalyses. simpl default.
  rewrite H1, H2. simpl log.
  split; intros r ok Hin; apply in_app_or in Hin as [Hin|Hin]; auto;
    destruct Hin as [Heq|[]]; inversion Heq; subst; right;
    apply interceptor_keeps_config.
Qed.

(** C8 (amended). For every operation of the gateway: when the store
    holds a non-empty token at request time the request carries
    [Authorization: Bearer <token>]; when it holds no token, or the
    empty string, the request carries no [Authorization] header.  The
    operation changes nothing of the application but the trace, and the
    request it sends depends on the application only through the
    store's [get]. *)
Theorem gateway_bearer (be : Backend) (op : Operation) (a : App) :
  exists r ok,
    perform be op a = emit (EvRequest r ok) a
    /\ (forall tok, Auth.getAuthToken a = Some tok -> tok <> "" ->
          headers r !! "Authorization" = Some ("Bearer " +:+ tok))
    /\ (Auth.getAuthToken a = None \/ Auth.getAuthToken a = Some "" ->
          headers r !! "Authorization" = None)
    /\ (forall a2, Auth.getAuthToken a2 = Auth.getAuthToken a ->
          exists ok2, perform be op a2 = emit (EvRequest r ok2) a2).
Proof.
  destruct (perform_one_call be op) as (cfg & Hh & Hrun).
  destruct (Hrun a) as [ok Ha].
  exists (Api.request_interceptor a cfg), ok.
  split; [exact Ha|]. split; [|split].
  - intros tok Ht Hne. rewrite (interceptor_bearer a cfg tok Ht Hne).
    apply lookup_insert_eq.
  - intros Hnone. rewrite (interceptor_anonymous a cfg Hnone), Hh.
    reflexivity.
  - intros a2 Heq. destruct (Hrun a2) as [ok2 H2]. exists ok2.
    rewrite H2. unfold Api.request_interceptor. rewrite Heq. reflexivity.
Qed.

Lemma gateway_bearer_witness :
  exists r ok,
    perform Sample.down OpGetCurrentUser (Sample.signed_in "tok123")
    = emit (EvRequest r ok) (Sample.signed_in "tok123")
    /\ headers r !! "Authorization" = Some "Bearer tok123".
Proof.
  destruct (gateway_bearer Sample.down OpGetCurrentUser (Sample.signed_in "tok123"))
    as (r & ok & Hrun & Hbearer & _).
  exists r, ok. split; [exact Hrun|].
  apply (Hbearer "tok123"); [reflexivity | discriminate].
Defined.

(** C8 as stated fails when the store holds the empty string: a token
    is held, and the request goes out without [Authorization]. *)
Lemma gateway_empty_token :
  Auth.getAuthToken (Sample.signed_in "") = Some ""
  /\ map (fun r => headers r !! "Authorization")
         (sent_requests (log (perform Sample.down OpGetCurrentUser (Sample.signed_in ""))))
     = [None].
Proof. split; reflexivity. Qed.

(** ** The session provider *)

Lemma new_events_app (a a' : App) (evs : list Event) :
  log a' = log a ++ evs -> new_events a a' = evs.
Proof. intros H. unfold new_events. rewrite H. apply drop_app_length. Qed.

(** The three ways [initAuth] can go. *)
Lemma initAuth_no_token be (a : App) :
  Js.truthy_opt (Auth.getAuthToken a) = false ->
  AuthContext.initAuth be a = (Normal tt, with_auth_loading false a).
Proof.
  intros H. unfold AuthContext.initAuth, mbind, M_bind, gets. rewrite H. reflexivity.
Qed.

Lemma initAuth_fetch_ok be (a : App) (u : User) :
  Js.truthy_opt (Auth.getAuthToken a) = true ->
  auth_me be (log a) (Api.request_interceptor a (Api.config GET "/api/v1/auth/me" [] None))
  = Success u ->
  AuthContext.initAuth be a
  = (Normal tt,
     with_auth_loading false
       (with_user (Some u)
          (emit (EvRequest (Api.request_interceptor a
                              (Api.config GET "/api/v1/auth/me" [] None)) true) a))).
Proof.
  intros H Hbe.
  unfold AuthContext.initAuth, mbind, M_bind, gets, try_catch, Api.getCurrentUser.
  rewrite H, api_call_run, Hbe. reflexivity.
Qed.

Lemma initAuth_fetch_fails be (a : App) (e : AxiosError) :
  Js.truthy_opt (Auth.getAuthToken a) = true ->
  auth_me be (log a) (Api.request_interceptor a (Api.config GET "/api/v1/auth/me" [] None))
  = Failure e ->
  AuthContext.initAuth be a
  = (Normal tt,
     with_auth_loading false
       (exec Auth.removeAuthToken
          (emit (EvConsoleError "Failed to get current user:")
             (emit (EvRequest (Api.request_interceptor a
                                 (Api.config GET "/api/v1/auth/me" [] None)) false) a)))).
Proof.
  intros H Hbe.
  unfold AuthContext.initAuth, mbind, M_bind, gets, try_catch, Api.getCurrentUser.
  rewrite H, api_call_run, Hbe.
  unfold exec, Auth.removeAuthToken, console_error, modify. simpl.
  destruct (window_defined a); reflexivity.
Qed.

Lemma getAuthToken_removed (a : App) :
  Auth.getAuthToken (exec Auth.removeAuthToken a) = None.
Proof.
  unfold exec, Auth.removeAuthToken, Auth.getAuthToken.
  destruct (window_defined a) eqn:Hw; simpl; rewrite Hw; [|reflexivity].
  apply lookup_delete_eq.
Qed.

Lemma removeAuthToken_frame (a : App) :
  log (exec Auth.removeAuthToken a) = log a
  /\ user (exec Auth.removeAuthToken a) = user a
  /\ auth_loading (exec Auth.removeAuthToken a) = auth_loading a
  /\ cb_error (exec Auth.removeAuthToken a) = cb_error a.
Proof.
  unfold exec, Auth.removeAuthToken. destruct (window_defined a); simpl; auto.
Qed.

(** C3. With no credential in the store at startup, [initAuth] ends
    Unauthenticated (loading false, no user) and adds nothing to the
    trace: no request is sent. *)
Theorem initAuth_no_credential (be : Backend) (a : App) :
  at_startup a ->
  Auth.getAuthToken a = None ->
  sessionState (exec (AuthContext.initAuth be) a) = Unauthenticated
  /\ auth_loading (exec (AuthContext.initAuth be) a) = false
  /\ user (exec (AuthContext.initAuth be) a) = None
  /\ log (exec (AuthContext.initAuth be) a) = log a
  /\ sent_requests (new_events a (exec (AuthContext.initAuth be) a)) = [].
Proof.
  intros [Hu _] Ht. unfold exec.
  rewrite initAuth_no_token by (rewrite Ht; reflexivity). simpl.
  unfold sessionState, AuthContext.isAuthenticated. simpl. rewrite Hu.
  repeat split; try reflexivity.
  rewrite (new_events_app a _ []); [reflexivity|].
  simpl. symmetry. apply app_nil_r.
Qed.

Lemma initAuth_no_credential_witness :
  sessionState (exec (AuthContext.initAuth Sample.down) (Sample.mounted ∅)) = Unauthenticated
  /\ log (exec (AuthContext.initAuth Sample.down) (Sample.mounted ∅)) = [].
Proof.
  destruct (initAuth_no_credential Sample.down (Sample.mounted ∅))
    as (Hs & _ & _ & Hl & _).
  - split; reflexivity.
  - reflexivity.
  - split; [exact Hs | exact Hl].
Defined.

(** C4. With a credential in the store at startup and the identity
    fetch rejected, [initAuth] ends Unauthenticated, the credential is
    gone from the store, and nothing is shown to the user: no alert, no
    error state; the handler itself completes normally. *)
Theorem initAuth_rejected_credential (be : Backend) (a : App) (tok : string) :
  at_startup a ->
  Auth.getAuthToken a = Some tok ->
  identity_fetch_failed a (exec (AuthContext.initAuth be) a) ->
  sessionState (exec (AuthContext.initAuth be) a) = Unauthenticated
  /\ Auth.getAuthToken (exec (AuthContext.initAuth be) a) = None
  /\ alerts (new_events a (exec (AuthContext.initAuth be) a)) = []
  /\ navigations (new_events a (exec (AuthContext.initAuth be) a)) = []
  /\ cb_error (exec (AuthContext.initAuth be) a) = cb_error a
  /\ completion (AuthContext.initAuth be) a = Normal tt.
Proof.
  intros [Hu _] Ht (r & Hurl & Hin). revert Hin. unfold exec, completion.
  destruct (Js.truthy_opt (Auth.getAuthToken a)) eqn:Htr.
  - destruct (auth_me be (log a)
                (Api.request_interceptor a (Api.config GET "/api/v1/auth/me" [] None)))
      as [u|e] eqn:Hbe.
    + rewrite (initAuth_fetch_ok be a u Htr Hbe). simpl.
      rewrite (new_events_app a _ [EvRequest
                 (Api.request_interceptor a (Api.config GET "/api/v1/auth/me" [] None)) true])
        by reflexivity.
      intros [Heq|[]]. discriminate Heq.
    + rewrite (initAuth_fetch_fails be a e Htr Hbe). simpl. intros _.
      set (a1 := emit (EvConsoleError "Failed to get current user:")
                   (emit (EvRequest (Api.request_interceptor a
                            (Api.config GET "/api/v1/auth/me" [] None)) false) a)).
      destruct (removeAuthToken_frame a1) as (Hl & Hus & _ & Hcb).
      assert (Hnew : new_events a (with_auth_loading false (exec Auth.removeAuthToken a1))
                     = [EvRequest (Api.request_interceptor a
                                     (Api.config GET "/api/v1/auth/me" [] None)) false;
                        EvConsoleError "Failed to get current user:"]).
      { apply new_events_app. simpl. rewrite Hl. subst a1. simpl.
        rewrite <- app_assoc. reflexivity. }
      rewrite Hnew.
      unfold sessionState, AuthContext.isAuthenticated. simpl.
      rewrite Hus, Hcb. subst a1. simpl. rewrite Hu.
      repeat split; try reflexivity.
      change (Auth.getAuthToken (with_auth_loading false (exec Auth.removeAuthToken
                (emit (EvConsoleError "Failed to get current user:")
                   (emit (EvRequest (Api.request_interceptor a
                            (Api.config GET "/api/v1/auth/me" [] None)) false) a)))))
        with (Auth.getAuthToken (exec Auth.removeAuthToken
                (emit (EvConsoleError "Failed to get current user:")
                   (emit (EvRequest (Api.request_interceptor a
                            (Api.config GET "/api/v1/auth/me" [] None)) false) a)))).
      apply getAuthToken_removed.
  - rewrite (initAuth_no_token be a Htr). simpl.
    rewrite (new_events_app a _ []) by (simpl; symmetry; apply app_nil_r).
    intros [].
Qed.

Lemma initAuth_rejected_credential_witness :
  Auth.getAuthToken (Sample.mounted {[Auth.AUTH_TOKEN_KEY := "tok123"]}) = Some "tok123"
  /\ sessionState (exec (AuthContext.initAuth Sample.down)
                     (Sample.mounted {[Auth.AUTH_TOKEN_KEY := "tok123"]})) = Unauthenticated
  /\ Auth.getAuthToken (exec (AuthContext.initAuth Sample.down)
                          (Sample.mounted {[Auth.AUTH_TOKEN_KEY := "tok123"]})) = None.
Proof.
  split; [reflexivity|].
  destruct (initAuth_rejected_credential Sample.down
              (Sample.mounted {[Auth.AUTH_TOKEN_KEY := "tok123"]}) "tok123")
    as (Hs & Hg & _).
  - split; reflexivity.
  - reflexivity.
  - exists (Api.request_interceptor (Sample.mounted {[Auth.AUTH_TOKEN_KEY := "tok123"]})
              (Api.config GET "/api/v1/auth/me" [] None)).
    split; [reflexivity|]. vm_compute. left. reflexivity.
  - split; [exact Hs | exact Hg].
Defined.

(** The two ways [logout] can go. *)
Lemma logout_run be (a : App) :
  AuthContext.logout be a
  = (Normal tt,
     with_user None
       (exec Auth.removeAuthToken
          (match auth_logout be (log a)
                   (Api.request_interceptor a (Api.config POST "/api/v1/auth/logout" [] None))
           with
           | Success _ =>
               emit (EvRequest (Api.request_interceptor a
                                  (Api.config POST "/api/v1/auth/logout" [] None)) true) a
           | Failure _ =>
               emit (EvConsoleError "Logout error:")
                 (emit (EvRequest (Api.request_interceptor a
                                     (Api.config POST "/api/v1/auth/logout" [] None)) false) a)
           end))).
Proof.
  unfold AuthContext.logout, mbind, M_bind, try_catch, Api.logout.
  rewrite api_call_run.
  destruct (auth_logout be (log a) _) as [[]|e];
    unfold exec, Auth.removeAuthToken, console_error, modify; simpl;
    destruct (window_defined a); reflexivity.
Qed.

(** C5. Whatever the backend answers to the logout call, [logout]
    completes normally, leaves no user and no credential in the store;
    issued outside the loading phase it ends Unauthenticated. *)
Theorem logout_always_unauthenticated (be : Backend) (a : App) :
  completion (AuthContext.logout be) a = Normal tt
  /\ user (exec (AuthContext.logout be) a) = None
  /\ AuthContext.isAuthenticated (exec (AuthContext.logout be) a) = false
  /\ Auth.getAuthToken (exec (AuthContext.logout be) a) = None
  /\ (auth_loading a = false ->
      sessionState (exec (AuthContext.logout be) a) = Unauthenticated).
Proof.
  unfold completion, exec. rewrite logout_run. simpl.
  set (a1 := match auth_logout be (log a) _ with Success _ => _ | Failure _ => _ end).
  assert (Hload : auth_loading a1 = auth_loading a).
  { subst a1. destruct (auth_logout be (log a) _); reflexivity. }
  destruct (removeAuthToken_frame a1) as (_ & _ & Hl & _).
  repeat split.
  - change (Auth.getAuthToken (with_user None (exec Auth.removeAuthToken a1)))
      with (Auth.getAuthToken (exec Auth.removeAuthToken a1)).
    apply getAuthToken_removed.
  - intros Hfalse. unfold sessionState, AuthContext.isAuthenticated. simpl.
    rewrite Hl, Hload, Hfalse. reflexivity.
Qed.

Lemma logout_always_unauthenticated_witness :
  sessionState (exec (AuthContext.logout Sample.down) (Sample.signed_in "tok123"))
  = Unauthenticated
  /\ Auth.getAuthToken (exec (AuthContext.logout Sample.down) (Sample.signed_in "tok123"))
     = None.
Proof.
  destruct (logout_always_unauthenticated Sample.down (Sample.signed_in "tok123"))
    as (_ & _ & _ & Hg & Hs).
  split; [apply Hs; reflexivity | exact Hg].
Defined.

(** ** The OAuth redirect handler *)

Lemma truthy_opt_true (o : option string) :
  Js.truthy_opt o = true <-> exists s, o = Some s /\ s <> "".
Proof.
  destruct o as [s|]; simpl.
  - rewrite truthy_spec. split; [eauto|]. intros (s' & [= <-] & H). exact H.
  - split; [discriminate|]. intros (s' & [=] & _).
Qed.

Lemma truthy_opt_false (o : option string) :
  Js.truthy_opt o = false <-> o = None \/ o = Some "".
Proof.
  destruct o as [s|]; simpl.
  - rewrite truthy_false. split; [intros ->; auto|]. intros [[=]|[= ->]]. reflexivity.
  - split; auto.
Qed.

Lemma handleCallback_denied be sp (a : App) :
  Js.truthy_opt (AuthCallback.searchParams_get sp "error") = true ->
  AuthCallback.handleCallback be sp a
  = (Normal tt, with_cb_error (Some "GitHub authentication was denied") a).
Proof. intros H. unfold AuthCallback.handleCallback. rewrite H. reflexivity. Qed.

Lemma handleCallback_missing be sp (a : App) :
  Js.truthy_opt (AuthCallback.searchParams_get sp "error") = false ->
  Js.truthy_opt (AuthCallback.searchParams_get sp "code") = false ->
  AuthCallback.handleCallback be sp a
  = (Normal tt, with_cb_error (Some "No authorization code received") a).
Proof.
  intros He Hc. unfold AuthCallback.handleCallback. rewrite He.
  destruct (AuthCallback.searchParams_get sp "code") as [c|]; [|reflexivity].
  simpl in Hc. rewrite Hc. reflexivity.
Qed.

Lemma handleCallback_exchange be sp (a : App) (c : string) :
  Js.truthy_opt (AuthCallback.searchParams_get sp "error") = false ->
  AuthCallback.searchParams_get sp "code" = Some c ->
  c <> "" ->
  AuthCallback.handleCallback be sp a
  = (Normal tt,
     let req := exchange_request a c
                  (Js.or_undefined (AuthCallback.searchParams_get sp "state")) in
     match auth_github_callback be (log a) req with
     | Success tokenData =>
         emit (EvRouterPush "/dashboard")
           (with_user (Some (token_user tokenData))
              (exec (Auth.setAuthToken (access_token tokenData))
                 (emit (EvRequest req true) a)))
     | Failure error =>
         with_cb_error (Some (Js.or_else (error_detail error) "Authentication failed"))
           (emit (EvConsoleError "Callback error:") (emit (EvRequest req false) a))
     end).
Proof.
  intros He Hc Hne. apply truthy_spec in Hne.
  unfold AuthCallback.handleCallback. rewrite He, Hc, Hne.
  unfold try_catch, mbind, M_bind, Api.githubCallback, exchange_request.
  rewrite api_call_run.
  destruct (auth_github_callback be (log a) _) as [td|e]; [|reflexivity].
  unfold AuthContext.login, mbind, M_bind, exec, Auth.setAuthToken, router_push, modify.
  simpl. destruct (window_defined a); reflexivity.
Qed.

Lemma setAuthToken_frame (tok : string) (a : App) :
  log (exec (Auth.setAuthToken tok) a) = log a
  /\ cb_error (exec (Auth.setAuthToken tok) a) = cb_error a
  /\ localStorage (exec (Auth.setAuthToken tok) a)
     = (if window_defined a then <[Auth.AUTH_TOKEN_KEY := tok]> (localStorage a)
        else localStorage a).
Proof.
  unfold exec, Auth.setAuthToken. destruct (window_defined a); simpl; auto.
Qed.

(** C2 (amended). For every callback URL: when [error] has a non-empty
    value the outcome is the denied-authorization message and nothing
    is sent, also when [code] is there; otherwise, when [code] is
    absent or empty, the outcome is the missing-code message and nothing
    is sent; otherwise exactly one request is sent, the code exchange,
    with the URL's [code] and with the URL's [state] when that is
    non-empty (no [state] member otherwise). *)
Theorem handleCallback_precedence (be : Backend) (sp : list (string * string)) (a : App) :
  (forall e, AuthCallback.searchParams_get sp "error" = Some e -> e <> "" ->
     cb_error (exec (AuthCallback.handleCallback be sp) a)
     = Some "GitHub authentication was denied"
     /\ log (exec (AuthCallback.handleCallback be sp) a) = log a)
  /\ ((AuthCallback.searchParams_get sp "error" = None
       \/ AuthCallback.searchParams_get sp "error" = Some "") ->
      (AuthCallback.searchParams_get sp "code" = None
       \/ AuthCallback.searchParams_get sp "code" = Some "") ->
      cb_error (exec (AuthCallback.handleCallback be sp) a)
      = Some "No authorization code received"
      /\ log (exec (AuthCallback.handleCallback be sp) a) = log a)
  /\ (forall c,
        (AuthCallback.searchParams_get sp "error" = None
         \/ AuthCallback.searchParams_get sp "error" = Some "") ->
        AuthCallback.searchParams_get sp "code" = Some c -> c <> "" ->
        sent_requests (new_events a (exec (AuthCallback.handleCallback be sp) a))
        = [exchange_request a c
             (match AuthCallback.searchParams_get sp "state" with
              | Some "" | None => None
              | Some s => Some s
              end)]).
Proof.
  split; [|split].
  - intros e He Hne. unfold exec. rewrite handleCallback_denied; [auto|].
    apply truthy_opt_true. eauto.
  - intros He Hc. apply truthy_opt_false in He, Hc. unfold exec.
    rewrite handleCallback_missing by assumption. auto.
  - intros c He Hc Hne. apply truthy_opt_false in He. unfold exec.
    rewrite (handleCallback_exchange be sp a c He Hc Hne). simpl.
    replace (match AuthCallback.searchParams_get sp "state" with
             | Some "" | None => None | Some s => Some s end)
      with (Js.or_undefined (AuthCallback.searchParams_get sp "state")).
    2:{ unfold Js.or_undefined.
        destruct (AuthCallback.searchParams_get sp "state") as [s|]; [|reflexivity].
        destruct (Js.truthy s) eqn:Hs.
        - apply truthy_spec in Hs. destruct s; [congruence | reflexivity].
        - apply truthy_false in Hs. subst s. reflexivity. }
    set (req := exchange_request a c _).
    destruct (auth_github_callback be (log a) req) as [td|e].
    + destruct (setAuthToken_frame (access_token td) (emit (EvRequest req true) a))
        as (Hl & _).
      rewrite (new_events_app a _ [EvRequest req true; EvRouterPush "/dashboard"]);
        [reflexivity|].
      simpl. rewrite Hl. simpl. rewrite <- app_assoc. reflexivity.
    + rewrite (new_events_app a _ [EvRequest req false; EvConsoleError "Callback error:"]);
        [reflexivity|].
      simpl. rewrite <- app_assoc. reflexivity.
Qed.

Lemma handleCallback_precedence_witness :
  cb_error (exec (AuthCallback.handleCallback (Sample.answering {| analysis_id := 7; status := "pending" |})
                    [("error", "access_denied"); ("code", "abc123")])
              (Sample.mounted ∅))
  = Some "GitHub authentication was denied"
  /\ sent_requests
       (new_events (Sample.mounted ∅)
          (exec (AuthCallback.handleCallback (Sample.answering {| analysis_id := 7; status := "pending" |})
                   [("code", "abc123"); ("state", "xyz")])
             (Sample.mounted ∅)))
     = [exchange_request (Sample.mounted ∅) "abc123" (Some "xyz")].
Proof.
  split.
  - destruct (handleCallback_precedence
                (Sample.answering {| analysis_id := 7; status := "pending" |})
                [("error", "access_denied"); ("code", "abc123")] (Sample.mounted ∅))
      as (Hdenied & _).
    apply (Hdenied "access_denied"); [reflexivity | discriminate].
  - destruct (handleCallback_precedence
                (Sample.answering {| analysis_id := 7; status := "pending" |})
                [("code", "abc123"); ("state", "xyz")] (Sample.mounted ∅))
      as (_ & _ & Hexchange).
    apply (Hexchange "abc123"); [left; reflexivity | reflexivity | discriminate].
Defined.

(** C2 as stated fails on a callback URL whose [error] parameter is
    there with an empty value ([?error=&code=abc123&state=xyz]): no
    denied outcome, and the exchange is called. *)
Lemma handleCallback_empty_error :
  AuthCallback.searchParams_get [("error", ""); ("code", "abc123"); ("state", "xyz")] "error"
  = Some ""
  /\ cb_error (exec (AuthCallback.handleCallback Sample.down
                       [("error", ""); ("code", "abc123"); ("state", "xyz")])
                 (Sample.mounted ∅))
     <> Some "GitHub authentication was denied"
  /\ map (fun r => (url r, body r))
         (sent_requests
            (log (exec (AuthCallback.handleCallback Sample.down
                          [("error", ""); ("code", "abc123"); ("state", "xyz")])
                    (Sample.mounted ∅))))
     = [("/api/v1/auth/github/callback",
         Some {| code := "abc123"; state := Some "xyz" |})].
Proof. split; [reflexivity|]. split; [discriminate | reflexivity]. Qed.

(** ** The persisted credential *)

Lemma api_call_completion be {A} (endpoint : Backend -> list Event -> Request -> Outcome A)
    (cfg : Request) (a : App) (d : A) :
  completion (Api.api_call be endpoint cfg) a = Normal d
  <-> endpoint be (log a) (Api.request_interceptor a cfg) = Success d.
Proof.
  unfold completion. rewrite api_call_run.
  destruct (endpoint be (log a) _); simpl; split; congruence.
Qed.

(** C9 as stated fails: two exchanges that differ only in the token
    type leave the same store behind, so the issuing scheme is not part
    of what is persisted. *)
Lemma token_type_not_persisted :
  token_type (Sample.token "bearer") <> token_type (Sample.token "mac")
  /\ localStorage (exec (AuthContext.login (Sample.token "bearer")) (Sample.mounted ∅))
     = localStorage (exec (AuthContext.login (Sample.token "mac")) (Sample.mounted ∅))
  /\ localStorage (exec (AuthContext.login (Sample.token "bearer")) (Sample.mounted ∅))
     = {[Auth.AUTH_TOKEN_KEY := "tok123"]}.
Proof. split; [discriminate|]. split; reflexivity. Qed.

(** C9 (amended). In the browser, after a successful token exchange the
    store holds the bearer token string, alone, under its one key (the
    token type is not stored); and the callback handler writes the
    store only on a successful exchange: otherwise the store is as it
    was. *)
Theorem credential_is_access_token (be : Backend) (sp : list (string * string)) (a : App) :
  window_defined a = true ->
  (forall tokenData,
     localStorage (exec (AuthContext.login tokenData) a)
     = <[Auth.AUTH_TOKEN_KEY := access_token tokenData]> (localStorage a))
  /\ (forall c tokenData,
        (AuthCallback.searchParams_get sp "error" = None
         \/ AuthCallback.searchParams_get sp "error" = Some "") ->
        AuthCallback.searchParams_get sp "code" = Some c -> c <> "" ->
        completion (Api.githubCallback be c
                      (Js.or_undefined (AuthCallback.searchParams_get sp "state"))) a
        = Normal tokenData ->
        Auth.getAuthToken (exec (AuthCallback.handleCallback be sp) a)
        = Some (access_token tokenData)
        /\ localStorage (exec (AuthCallback.handleCallback be sp) a)
           = <[Auth.AUTH_TOKEN_KEY := access_token tokenData]> (localStorage a))
  /\ (localStorage (exec (AuthCallback.handleCallback be sp) a) = localStorage a
      \/ exists c st tokenData,
           completion (Api.githubCallback be c st) a = Normal tokenData
           /\ localStorage (exec (AuthCallback.handleCallback be sp) a)
              = <[Auth.AUTH_TOKEN_KEY := access_token tokenData]> (localStorage a)).
Proof.
  intros Hw. split; [|split].
  - intros td. unfold exec, AuthContext.login, mbind, M_bind, Auth.setAuthToken, modify.
    rewrite Hw. reflexivity.
  - intros c td He Hc Hne Hok. apply truthy_opt_false in He.
    apply api_call_completion in Hok. unfold exec.
    rewrite (handleCallback_exchange be sp a c He Hc Hne). simpl.
    unfold exchange_request. rewrite Hok.
    unfold exec, Auth.setAuthToken, Auth.getAuthToken. simpl. rewrite Hw. simpl.
    rewrite Hw. split; [apply lookup_insert_eq | reflexivity].
  - unfold exec.
    destruct (Js.truthy_opt (AuthCallback.searchParams_get sp "error")) eqn:He.
    { rewrite handleCallback_denied by exact He. left. reflexivity. }
    destruct (Js.truthy_opt (AuthCallback.searchParams_get sp "code")) eqn:Hc.
    2:{ rewrite handleCallback_missing by assumption. left. reflexivity. }
    apply truthy_opt_true in Hc as (c & Hc & Hne).
    rewrite (handleCallback_exchange be sp a c He Hc Hne). simpl.
    destruct (auth_github_callback be (log a) _) as [td|e] eqn:Hbe.
    + right. exists c, (Js.or_undefined (AuthCallback.searchParams_get sp "state")), td.
      split; [apply api_call_completion; exact Hbe|].
      unfold exec, Auth.setAuthToken. simpl. rewrite Hw. reflexivity.
    + left. reflexivity.
Qed.

Lemma credential_is_access_token_witness :
  Auth.getAuthToken
    (exec (AuthCallback.handleCallback (Sample.answering {| analysis_id := 7; status := "pending" |})
             [("code", "abc123"); ("state", "xyz")])
       (Sample.mounted ∅))
  = Some "tok123".
Proof.
  destruct (credential_is_access_token
              (Sample.answering {| analysis_id := 7; status := "pending" |})
              [("code", "abc123"); ("state", "xyz")] (Sample.mounted ∅))
    as (_ & Hstored & _); [reflexivity|].
  apply (Hstored "abc123" (Sample.token "bearer"));
    [left; reflexivity | reflexivity | discriminate | reflexivity].
Defined.

(** ** The dashboard *)

Lemma api_call_thrown be {A} (endpoint : Backend -> list Event -> Request -> Outcome A)
    (cfg : Request) (a : App) (e : AxiosError) :
  completion (Api.api_call be endpoint cfg) a = Thrown e
  <-> endpoint be (log a) (Api.request_interceptor a cfg) = Failure e.
Proof.
  unfold completion. rewrite api_call_run.
  destruct (endpoint be (log a) _); simpl; split; congruence.
Qed.

Lemma handleSyncRepositories_failed be (a : App) (e : AxiosError) :
  repositories_sync be (log a) (sync_request a) = Failure e ->
  exec (Dashboard.handleSyncRepositories be) a
  = with_syncing false
      (emit (EvAlert (Js.or_else (error_detail e) "Failed to sync repositories"))
         (emit (EvConsoleError "Failed to sync repositories:")
            (emit (EvRequest (sync_request a) false) (with_syncing true a)))).
Proof.
  intros Hbe.
  unfold exec, Dashboard.handleSyncRepositories, try_finally, try_catch, mbind, M_bind,
    Api.syncRepositories, modify.
  rewrite api_call_run. simpl log.
  change (Api.request_interceptor (with_syncing true a)
            (Api.config POST "/api/v1/repositories/sync" [] None))
    with (sync_request a).
  rewrite Hbe. reflexivity.
Qed.

Lemma handleSyncRepositories_synced be (a : App) (result : SyncResult) :
  repositories_sync be (log a) (sync_request a) = Success result ->
  exec (Dashboard.handleSyncRepositories be) a
  = with_syncing false
      (emit (EvAlert ("Successfully synced " +:+ Js.num_to_string (synced_count result)
                      +:+ " repositories!"))
         (let a1 := with_repositories (sync_repositories result)
                      (emit (EvRequest (sync_request a) true) (with_syncing true a)) in
          match repositories_stats be (log a ++ [EvRequest (sync_request a) true])
                  (stats_request a) with
          | Success repoStats =>
              with_stats (Some repoStats) (emit (EvRequest (stats_request a) true) a1)
          | Failure _ =>
              emit (EvConsoleError "Failed to load stats:")
                (emit (EvRequest (stats_request a) false) a1)
          end)).
Proof.
  intros Hbe.
  unfold exec, Dashboard.handleSyncRepositories, Dashboard.loadStats, try_finally,
    try_catch, mbind, M_bind, Api.syncRepositories, Api.getRepositoryStats, modify.
  rewrite api_call_run. simpl log.
  change (Api.request_interceptor (with_syncing true a)
            (Api.config POST "/api/v1/repositories/sync" [] None))
    with (sync_request a).
  rewrite Hbe. rewrite api_call_run. simpl log.
  change (Api.request_interceptor
            (with_repositories (sync_repositories result)
               (emit (EvRequest (sync_request a) true) (with_syncing true a)))
            (Api.config GET "/api/v1/repositories/stats/summary" [] None))
    with (stats_request a).
  destruct (repositories_stats be _ (stats_request a)); reflexivity.
Qed.

Lemma request_url (a : App) (cfg : Request) :
  url (Api.request_interceptor a cfg) = url cfg.
Proof. apply interceptor_keeps_config. Qed.

(** C7 (amended). When [syncRepositories] fails, the repository list
    and the stats are what they were before the call, and one alert is
    shown: the backend's detail, verbatim, when it is there and
    non-empty, else (no detail, or an empty one) the generic message.
    When it succeeds, the list is replaced by the returned one and the
    stats are fetched again: replaced by the answer of that fetch, or
    left as they were when it fails. *)
Theorem handleSyncRepositories_outcomes (be : Backend) (a : App) :
  (forall e, completion (Api.syncRepositories be) a = Thrown e ->
     repositories (exec (Dashboard.handleSyncRepositories be) a) = repositories a
     /\ stats (exec (Dashboard.handleSyncRepositories be) a) = stats a
     /\ (forall d, error_detail e = Some d -> d <> "" ->
           alerts (new_events a (exec (Dashboard.handleSyncRepositories be) a)) = [d])
     /\ (error_detail e = None \/ error_detail e = Some "" ->
           alerts (new_events a (exec (Dashboard.handleSyncRepositories be) a))
           = ["Failed to sync repositories"]))
  /\ (forall result, completion (Api.syncRepositories be) a = Normal result ->
     repositories (exec (Dashboard.handleSyncRepositories be) a) = sync_repositories result
     /\ map url (sent_requests (new_events a (exec (Dashboard.handleSyncRepositories be) a)))
        = ["/api/v1/repositories/sync"; "/api/v1/repositories/stats/summary"]
     /\ match repositories_stats be (log a ++ [EvRequest (sync_request a) true])
                (stats_request a) with
        | Success repoStats =>
            stats (exec (Dashboard.handleSyncRepositories be) a) = Some repoStats
        | Failure _ =>
            stats (exec (Dashboard.handleSyncRepositories be) a) = stats a
        end).
Proof.
  split.
  - intros e He. apply api_call_thrown in He.
    rewrite (handleSyncRepositories_failed be a e He).
    assert (Hnew : forall msg,
      new_events a
        (with_syncing false
           (emit (EvAlert msg)
              (emit (EvConsoleError "Failed to sync repositories:")
                 (emit (EvRequest (sync_request a) false) (with_syncing true a)))))
      = [EvRequest (sync_request a) false;
         EvConsoleError "Failed to sync repositories:"; EvAlert msg]).
    { intros msg. apply new_events_app. simpl. rewrite <- !app_assoc. reflexivity. }
    rewrite Hnew. simpl. repeat split.
    + intros d Hd Hne. rewrite Hd. simpl. apply truthy_spec in Hne. rewrite Hne. reflexivity.
    + intros [Hd|Hd]; rewrite Hd; reflexivity.
  - intros result Hok. apply api_call_completion in Hok.
    rewrite (handleSyncRepositories_synced be a result Hok). cbv zeta.
    destruct (repositories_stats be _ (stats_request a)) as [st|e].
    + rewrite (new_events_app a _
                 [EvRequest (sync_request a) true; EvRequest (stats_request a) true;
                  EvAlert ("Successfully synced " +:+ Js.num_to_string (synced_count result)
                           +:+ " repositories!")])
        by (simpl; rewrite <- !app_assoc; reflexivity).
      simpl. unfold sync_request, stats_request. rewrite !request_url. auto.
    + rewrite (new_events_app a _
                 [EvRequest (sync_request a) true; EvRequest (stats_request a) false;
                  EvConsoleError "Failed to load stats:";
                  EvAlert ("Successfully synced " +:+ Js.num_to_string (synced_count result)
                           +:+ " repositories!")])
        by (simpl; rewrite <- !app_assoc; reflexivity).
      simpl. unfold sync_request, stats_request. rewrite !request_url. auto.
Qed.

Lemma handleSyncRepositories_outcomes_witness :
  repositories (exec (Dashboard.handleSyncRepositories
                        (Sample.sync_rejected (Sample.rejected "rate limited")))
                  (Sample.signed_in "tok123"))
  = [Sample.repo]
  /\ alerts (new_events (Sample.signed_in "tok123")
               (exec (Dashboard.handleSyncRepositories
                        (Sample.sync_rejected (Sample.rejected "rate limited")))
                  (Sample.signed_in "tok123")))
     = ["rate limited"].
Proof.
  destruct (handleSyncRepositories_outcomes
              (Sample.sync_rejected (Sample.rejected "rate limited"))
              (Sample.signed_in "tok123")) as (Hfail & _).
  destruct (Hfail (Sample.rejected "rate limited")) as (Hrepos & _ & Hdetail & _);
    [reflexivity|].
  split; [exact Hrepos|].
  apply Hdetail; [reflexivity | discriminate].
Defined.

(** C7 as stated fails when the backend's detail is there but empty:
    the generic message is shown, not the detail. *)
Lemma handleSyncRepositories_empty_detail :
  error_detail (Sample.rejected "") = Some ""
  /\ alerts (log (exec (Dashboard.handleSyncRepositories
                          (Sample.sync_rejected (Sample.rejected "")))
                    (Sample.signed_in "tok123")))
     = ["Failed to sync repositories"].
Proof. split; reflexivity. Qed.

Lemma handleAnalyzeRepository_answered be (a : App) (repoId : Z) (repoName : string)
    (result : StartResult) :
  analysis_analyze be (log a) (analyze_request a repoId) = Success result ->
  exec (Dashboard.handleAnalyzeRepository be repoId repoName) a
  = with_analyzingRepos (fun prev => prev ∖ {[repoId]})
      (emit (routed repoName result)
         (emit (EvRequest (analyze_request a repoId) true)
            (with_analyzingRepos (fun prev => prev ∪ {[repoId]}) a))).
Proof.
  intros Hbe.
  unfold exec, Dashboard.handleAnalyzeRepository, try_finally, try_catch, mbind, M_bind,
    Api.startAnalysis, modify.
  rewrite api_call_run. simpl log.
  change (Api.request_interceptor (with_analyzingRepos (fun prev => prev ∪ {[repoId]}) a)
            (Api.config POST ("/api/v1/analysis/analyze/" +:+ Js.num_to_string repoId)
               [] None))
    with (analyze_request a repoId).
  rewrite Hbe. unfold routed, router_push, alert, modify.
  destruct (String.eqb (status result) "completed") eqn:Hc.
  - apply String.eqb_eq in Hc. rewrite Hc. reflexivity.
  - destruct (String.eqb (status result) "failed"); reflexivity.
Qed.

Lemma handleAnalyzeRepository_v1_answered be (a : App) (repoId : Z) (repoName : string)
    (result : StartResult) :
  analysis_analyze be (log a) (analyze_request a repoId) = Success result ->
  exists msg,
    exec (DashboardV1.handleAnalyzeRepository be repoId repoName) a
    = with_analyzingRepos (fun prev => prev ∖ {[repoId]})
        (emit (EvAlert msg)
           (emit (EvRequest (analyze_request a repoId) true)
              (with_analyzingRepos (fun prev => prev ∪ {[repoId]}) a))).
Proof.
  intros Hbe.
  unfold exec, DashboardV1.handleAnalyzeRepository, try_finally, try_catch, mbind, M_bind,
    Api.startAnalysis, modify.
  rewrite api_call_run. simpl log.
  change (Api.request_interceptor (with_analyzingRepos (fun prev => prev ∪ {[repoId]}) a)
            (Api.config POST ("/api/v1/analysis/analyze/" +:+ Js.num_to_string repoId)
               [] None))
    with (analyze_request a repoId).
  rewrite Hbe. unfold alert, modify.
  destruct (String.eqb (status result) "completed");
    [|destruct (String.eqb (status result) "failed")]; eexists; reflexivity.
Qed.

Lemma handleAnalyzeRepository_v1_notified be (a : App) (repoId : Z) (repoName : string)
    (result : StartResult) :
  analysis_analyze be (log a) (analyze_request a repoId) = Success result ->
  exec (DashboardV1.handleAnalyzeRepository be repoId repoName) a
  = with_analyzingRepos (fun prev => prev ∖ {[repoId]})
      (emit (EvAlert (notified repoName result))
         (emit (EvRequest (analyze_request a repoId) true)
            (with_analyzingRepos (fun prev => prev ∪ {[repoId]}) a))).
Proof.
  intros Hbe.
  unfold exec, DashboardV1.handleAnalyzeRepository, try_finally, try_catch, mbind, M_bind,
    Api.startAnalysis, modify.
  rewrite api_call_run. simpl log.
  change (Api.request_interceptor (with_analyzingRepos (fun prev => prev ∪ {[repoId]}) a)
            (Api.config POST ("/api/v1/analysis/analyze/" +:+ Js.num_to_string repoId)
               [] None))
    with (analyze_request a repoId).
  rewrite Hbe. unfold notified, alert, modify.
  destruct (String.eqb (status result) "completed");
    [|destruct (String.eqb (status result) "failed")]; reflexivity.
Qed.

(** C1 (amended). For every answer of [startAnalysis] (no exception):
    the later trigger sends that one request and nothing else, so it
    neither waits for the job nor polls; when the returned status is
    not "failed" (completed, pending, running or anything else) it
    navigates to the results view addressed by the returned analysis
    id and shows no alert; when the status is "failed" it shows an
    alert and does not navigate.  The earlier trigger sends the same
    single request, never navigates, and only alerts, for every status:
    one alert, the completed notice with the analysis id, the failed
    notice, or the in-progress notice for any other status. *)
Theorem handleAnalyzeRepository_routes (be : Backend) (a : App) (repoId : Z)
    (repoName : string) (result : StartResult) :
  completion (Api.startAnalysis be repoId) a = Normal result ->
  sent_requests (new_events a (exec (Dashboard.handleAnalyzeRepository be repoId repoName) a))
  = [analyze_request a repoId]
  /\ (status result <> "failed" ->
      navigations (new_events a (exec (Dashboard.handleAnalyzeRepository be repoId repoName) a))
      = ["/analysis/results?id=" +:+ Js.num_to_string (analysis_id result)]
      /\ alerts (new_events a (exec (Dashboard.handleAnalyzeRepository be repoId repoName) a))
         = [])
  /\ (status result = "failed" ->
      navigations (new_events a (exec (Dashboard.handleAnalyzeRepository be repoId repoName) a))
      = []
      /\ alerts (new_events a (exec (Dashboard.handleAnalyzeRepository be repoId repoName) a))
         = ["❌ Analysis failed for " +:+ repoName])
  /\ sent_requests
       (new_events a (exec (DashboardV1.handleAnalyzeRepository be repoId repoName) a))
     = [analyze_request a repoId]
  /\ navigations
       (new_events a (exec (DashboardV1.handleAnalyzeRepository be repoId repoName) a))
     = []
  /\ (status result = "completed" ->
      alerts (new_events a (exec (DashboardV1.handleAnalyzeRepository be repoId repoName) a))
      = ["✅ Analysis completed for " +:+ repoName +:+ "!" +:+ Js.nl +:+ Js.nl
         +:+ "Analysis ID: " +:+ Js.num_to_string (analysis_id result)])
  /\ (status result = "failed" ->
      alerts (new_events a (exec (DashboardV1.handleAnalyzeRepository be repoId repoName) a))
      = ["❌ Analysis failed for " +:+ repoName])
  /\ (status result <> "completed" -> status result <> "failed" ->
      alerts (new_events a (exec (DashboardV1.handleAnalyzeRepository be repoId repoName) a))
      = ["⏳ Analysis in progress for " +:+ repoName +:+ "..."]).
Proof.
  intros Hok. apply api_call_completion in Hok.
  change (analysis_analyze be (log a) (analyze_request a repoId) = Success result) in Hok.
  rewrite (handleAnalyzeRepository_answered be a repoId repoName result Hok).
  rewrite (handleAnalyzeRepository_v1_notified be a repoId repoName result Hok).
  rewrite (new_events_app a _ [EvRequest (analyze_request a repoId) true;
                               routed repoName result])
    by (simpl; rewrite <- app_assoc; reflexivity).
  rewrite (new_events_app a _ [EvRequest (analyze_request a repoId) true;
                               EvAlert (notified repoName result)])
    by (simpl; rewrite <- app_assoc; reflexivity).
  split; [unfold routed; destruct (String.eqb (status result) "failed"); reflexivity|].
  split.
  { intros Hf. unfold routed. apply String.eqb_neq in Hf. rewrite Hf.
    split; reflexivity. }
  split.
  { intros Hf. unfold routed. rewrite Hf. split; reflexivity. }
  split; [reflexivity|]. split; [reflexivity|].
  unfold notified. simpl alerts.
  split; [|split].
  - intros Hc. rewrite Hc. reflexivity.
  - intros Hf. rewrite Hf. reflexivity.
  - intros Hc Hf. apply String.eqb_neq in Hc, Hf. rewrite Hc, Hf. reflexivity.
Qed.

Lemma handleAnalyzeRepository_routes_witness :
  navigations
    (new_events (Sample.signed_in "tok123")
       (exec (Dashboard.handleAnalyzeRepository
                (Sample.answering {| analysis_id := 7; status := "pending" |}) 42 "hello")
          (Sample.signed_in "tok123")))
  = ["/analysis/results?id=7"]
  /\ alerts
       (new_events (Sample.signed_in "tok123")
          (exec (DashboardV1.handleAnalyzeRepository
                   (Sample.answering {| analysis_id := 7; status := "pending" |}) 42 "hello")
             (Sample.signed_in "tok123")))
     = ["⏳ Analysis in progress for hello..."].
Proof.
  destruct (handleAnalyzeRepository_routes
              (Sample.answering {| analysis_id := 7; status := "pending" |})
              (Sample.signed_in "tok123") 42 "hello"
              {| analysis_id := 7; status := "pending" |})
    as (_ & Hnav & _ & _ & _ & _ & _ & Hprogress);
    [reflexivity|].
  split.
  - destruct Hnav as [Hnav _]; [discriminate|]. exact Hnav.
  - apply Hprogress; discriminate.
Defined.

(** C1 as stated fails for the status "failed": the backend answers, no
    exception is raised, and the later trigger alerts and stays on the
    dashboard; the earlier trigger stays there for every status. *)
Lemma handleAnalyzeRepository_failed_stays :
  completion (Api.startAnalysis (Sample.answering {| analysis_id := 7; status := "failed" |}) 42)
    (Sample.signed_in "tok123")
  = Normal {| analysis_id := 7; status := "failed" |}
  /\ navigations
       (log (exec (Dashboard.handleAnalyzeRepository
                     (Sample.answering {| analysis_id := 7; status := "failed" |}) 42 "hello")
               (Sample.signed_in "tok123")))
     = []
  /\ navigations
       (log (exec (DashboardV1.handleAnalyzeRepository
                     (Sample.answering {| analysis_id := 7; status := "pending" |}) 42 "hello")
               (Sample.signed_in "tok123")))
     = [].
Proof. split; [reflexivity|]. split; reflexivity. Qed.

(** ** The issue filter *)

Lemma filter_true {A} (l : list A) : List.filter (fun _ => true) l = l.
Proof. induction l as [|x l IH]; simpl; [|rewrite IH]; reflexivity. Qed.

Lemma filter_sublist {A} (p : A -> bool) (l : list A) : sublist (List.filter p l) l.
Proof.
  induction l as [|x l IH]; simpl.
  - constructor.
  - destruct (p x); constructor; exact IH.
Qed.

(** A selector written in lower case, other than "all", keeps the
    issues whose severity is that selector up to case. *)
Lemma filteredIssues_lower_case (an : Analysis) (s : string) :
  s <> "all" -> Js.toLowerCase s = s ->
  Results.filteredIssues (Some an) s
  = List.filter (fun issue => equal_ignoring_case (severity issue) s) (issues an).
Proof.
  intros Hall Hlow. unfold Results.filteredIssues, equal_ignoring_case.
  apply String.eqb_neq in Hall. rewrite Hall, Hlow. reflexivity.
Qed.

(** C6. For every analysis, hence every issue list, the empty one
    included: under the selector "all" the filter returns the list as
    it is; under each of the other selectors the page can set, the four
    severities, it returns the issues whose severity is that one up to
    case, in their order in the list.  It is a function of its
    two arguments only, and whatever the selector its result is the
    list with some elements left out. *)
Theorem filteredIssues_by_severity (an : Analysis) :
  Results.filteredIssues (Some an) "all" = issues an
  /\ (forall s, In s Results.selectors -> s <> "all" ->
        Results.filteredIssues (Some an) s
        = List.filter (fun issue => equal_ignoring_case (severity issue) s) (issues an))
  /\ (forall s, sublist (Results.filteredIssues (Some an) s) (issues an)).
Proof.
  split; [|split].
  - unfold Results.filteredIssues. simpl. apply filter_true.
  - intros s Hs Hall. apply filteredIssues_lower_case; [exact Hall|].
    simpl in Hs. destruct Hs as [<-|[<-|[<-|[<-|[<-|[]]]]]]; reflexivity.
  - intros s. apply filter_sublist.
Qed.

Lemma filteredIssues_by_severity_witness :
  Results.filteredIssues
    (Some {| analysis_ident := 7; repository_id := 42; analysis_status := "completed";
             overall_score := None; total_issues := 3; critical_issues := 0;
             high_issues := 2; medium_issues := 0; low_issues := 1; summary := None;
             files_analyzed := 1; lines_analyzed := 10; tokens_used := 100;
             estimated_cost := 0; analysis_created_at := "2025-01-03T00:00:00Z";
             completed_at := None;
             issues := [Sample.issue 1 "HIGH"; Sample.issue 2 "low"; Sample.issue 3 "High"] |})
    "high"
  = [Sample.issue 1 "HIGH"; Sample.issue 3 "High"].
Proof.
  destruct (filteredIssues_by_severity
    {| analysis_ident := 7; repository_id := 42; analysis_status := "completed";
       overall_score := None; total_issues := 3; critical_issues := 0;
       high_issues := 2; medium_issues := 0; low_issues := 1; summary := None;
       files_analyzed := 1; lines_analyzed := 10; tokens_used := 100;
       estimated_cost := 0; analysis_created_at := "2025-01-03T00:00:00Z";
       completed_at := None;
       issues := [Sample.issue 1 "HIGH"; Sample.issue 2 "low"; Sample.issue 3 "High"] |})
    as (_ & Hsev & _).
  rewrite (Hsev "high"); [reflexivity | simpl; auto | discriminate].
Defined.

(** * Further properties *)

(** ** The credential store *)

Lemma store_op_window (op : StoreOp) (a : App) :
  window_defined (exec (store_op op) a) = window_defined a.
Proof.
  destruct op; unfold exec, store_op, Auth.setAuthToken, Auth.removeAuthToken;
    destruct (window_defined a) eqn:Hw; simpl; auto.
Qed.

Lemma store_ops_window (ops : list StoreOp) (a : App) :
  window_defined (store_ops ops a) = window_defined a.
Proof.
  revert a. induction ops as [|op ops IH]; intros a; simpl; [reflexivity|].
  rewrite IH. apply store_op_window.
Qed.

Lemma store_ops_app (ops1 ops2 : list StoreOp) (a : App) :
  store_ops (ops1 ++ ops2) a = store_ops ops2 (store_ops ops1 a).
Proof.
  revert a. induction ops1 as [|op ops1 IH]; intros a; simpl; [reflexivity|]. apply IH.
Qed.

(** X1. In the browser, after any sequence of writes to the store,
    [getAuthToken] returns what the last write left: the token of a
    [setAuthToken], nothing after a [removeAuthToken]. *)
Theorem store_last_write (ops : list StoreOp) (op : StoreOp) (a : App) :
  window_defined a = true ->
  Auth.getAuthToken (store_ops (ops ++ [op]) a)
  = match op with
    | Put token => Some token
    | Clear => None
    end.
Proof.
  intros Hw. rewrite store_ops_app. simpl.
  assert (Hw' : window_defined (store_ops ops a) = true)
    by (rewrite store_ops_window; exact Hw).
  destruct op as [token|]; unfold exec, store_op, Auth.setAuthToken,
    Auth.removeAuthToken, Auth.getAuthToken; rewrite Hw'; simpl; rewrite Hw'.
  - apply lookup_insert_eq.
  - apply lookup_delete_eq.
Qed.

Lemma store_last_write_witness :
  Auth.getAuthToken (store_ops ([Put "a"; Clear] ++ [Put "b"]) (Sample.mounted ∅)) = Some "b"
  /\ Auth.getAuthToken (store_ops ([Put "a"; Put "b"] ++ [Clear]) (Sample.mounted ∅)) = None.
Proof.
  split.
  - apply (store_last_write [Put "a"; Clear] (Put "b") (Sample.mounted ∅)). reflexivity.
  - apply (store_last_write [Put "a"; Put "b"] Clear (Sample.mounted ∅)). reflexivity.
Defined.

(** X2. The store functions touch one key of [localStorage] and nothing
    else: every other key keeps its value, and the session, the
    dashboard state and the trace are as before. *)
Theorem store_one_key (ops : list StoreOp) (a : App) :
  (forall k, k <> Auth.AUTH_TOKEN_KEY ->
     localStorage (store_ops ops a) !! k = localStorage a !! k)
  /\ user (store_ops ops a) = user a
  /\ auth_loading (store_ops ops a) = auth_loading a
  /\ same_dashboard a (store_ops ops a)
  /\ log (store_ops ops a) = log a.
Proof.
  revert a. induction ops as [|op ops IH]; intros a; simpl.
  - unfold same_dashboard. auto 10.
  - destruct (IH (exec (store_op op) a)) as (Hk & Hu & Hl & Hd & Hlog).
    assert (Hstep : (forall k, k <> Auth.AUTH_TOKEN_KEY ->
                       localStorage (exec (store_op op) a) !! k = localStorage a !! k)
                    /\ user (exec (store_op op) a) = user a
                    /\ auth_loading (exec (store_op op) a) = auth_loading a
                    /\ same_dashboard a (exec (store_op op) a)
                    /\ log (exec (store_op op) a) = log a).
    { unfold same_dashboard.
      destruct op as [token|]; unfold exec, store_op, Auth.setAuthToken,
        Auth.removeAuthToken; destruct (window_defined a); simpl;
        repeat split; auto; intros k Hne.
      - apply lookup_insert_ne. congruence.
      - apply lookup_delete_ne. congruence. }
    destruct Hstep as (Hk1 & Hu1 & Hl1 & Hd1 & Hlog1).
    unfold same_dashboard in *.
    repeat split; try congruence.
    + intros k Hne. rewrite Hk by exact Hne. apply Hk1. exact Hne.
    + destruct Hd as (H1 & _), Hd1 as (H2 & _). congruence.
    + destruct Hd as (_ & H1 & _), Hd1 as (_ & H2 & _). congruence.
    + destruct Hd as (_ & _ & H1 & _), Hd1 as (_ & _ & H2 & _). congruence.
    + destruct Hd as (_ & _ & _ & H1 & _), Hd1 as (_ & _ & _ & H2 & _). congruence.
    + destruct Hd as (_ & _ & _ & _ & H1), Hd1 as (_ & _ & _ & _ & H2). congruence.
Qed.

(** X3. Where there is no [window] (rendering on the server), the store
    functions do nothing and [getAuthToken] returns [null], whatever has
    been written. *)
Theorem store_without_window (ops : list StoreOp) (a : App) :
  window_defined a = false ->
  store_ops ops a = a /\ Auth.getAuthToken (store_ops ops a) = None.
Proof.
  intros Hw.
  assert (Hsame : store_ops ops a = a).
  { induction ops as [|op ops IH]; simpl; [reflexivity|].
    replace (exec (store_op op) a) with a; [exact IH|].
    destruct op; unfold exec, store_op, Auth.setAuthToken, Auth.removeAuthToken;
      rewrite Hw; reflexivity. }
  rewrite Hsame. split; [reflexivity|].
  unfold Auth.getAuthToken. rewrite Hw. reflexivity.
Qed.

Lemma store_without_window_witness :
  Auth.getAuthToken (store_ops [Put "tok123"] Scenario.server_side) = None.
Proof.
  apply (store_without_window [Put "tok123"] Scenario.server_side). reflexivity.
Defined.

(** ** The gateway *)

(** X4. The two places that build the authorization header agree: on a
    configuration that carries no [Authorization] yet, as every
    operation's does, the interceptor leaves the [Authorization] that
    [getAuthHeaders] computes, also for an empty or missing token; and
    the [Content-Type] of [getAuthHeaders] is the one the instance is
    created with. *)
Theorem getAuthHeaders_agrees (a : App) (cfg : Request) :
  headers cfg !! "Authorization" = None ->
  headers (Api.request_interceptor a cfg) !! "Authorization"
  = Auth.getAuthHeaders a !! "Authorization"
  /\ Auth.getAuthHeaders a !! "Content-Type" = Api.default_headers !! "Content-Type".
Proof.
  intros Hnone. unfold Api.request_interceptor, Auth.getAuthHeaders, Api.default_headers.
  destruct (Auth.getAuthToken a) as [token|]; [destruct (Js.truthy token)|]; simpl.
  - rewrite !lookup_insert_eq. split; [reflexivity|].
    rewrite lookup_insert_ne by discriminate. reflexivity.
  - rewrite Hnone. split; reflexivity.
  - rewrite Hnone. split; reflexivity.
Qed.

Lemma getAuthHeaders_agrees_witness :
  headers (Api.request_interceptor (Sample.signed_in "tok123")
             (Api.config GET "/api/v1/auth/me" [] None)) !! "Authorization"
  = Auth.getAuthHeaders (Sample.signed_in "tok123") !! "Authorization".
Proof.
  destruct (getAuthHeaders_agrees (Sample.signed_in "tok123")
              (Api.config GET "/api/v1/auth/me" [] None)) as [H _];
    [reflexivity | exact H].
Defined.

(** X5. The interceptor changes nothing of a request but its
    [Authorization] header: method, path, parameters and body are the
    configured ones, and every other header, whatever the configuration
    carries, keeps its value or its absence. *)
Theorem interceptor_frame (a : App) (cfg : Request) :
  method (Api.request_interceptor a cfg) = method cfg
  /\ url (Api.request_interceptor a cfg) = url cfg
  /\ params (Api.request_interceptor a cfg) = params cfg
  /\ body (Api.request_interceptor a cfg) = body cfg
  /\ (forall k, k <> "Authorization" ->
        headers (Api.request_interceptor a cfg) !! k = headers cfg !! k).
Proof.
  unfold Api.request_interceptor.
  destruct (Auth.getAuthToken a) as [token|]; [destruct (Js.truthy token)|];
    simpl; repeat split; intros k Hk.
  apply lookup_insert_ne. congruence.
Qed.

Lemma sent_requests_app (l1 l2 : list Event) :
  sent_requests (l1 ++ l2) = sent_requests l1 ++ sent_requests l2.
Proof.
  induction l1 as [|ev l1 IH]; simpl; [reflexivity|].
  destruct ev; simpl; rewrite IH; reflexivity.
Qed.

Lemma api_call_url be {A} (endpoint : Backend -> list Event -> Request -> Outcome A)
    (cfg : Request) (a : App) :
  map url (sent_requests (log (exec (Api.api_call be endpoint cfg) a)))
  = map url (sent_requests (log a)) ++ [url cfg].
Proof.
  destruct (api_call_exec be endpoint cfg a) as [ok ->]. simpl.
  rewrite sent_requests_app, map_app. simpl. rewrite request_url. reflexivity.
Qed.

(** X6. The path of a request names its resource: two calls of the same
    operation on a repository or an analysis with different identifiers
    go to different paths. *)
Theorem resource_paths_distinct (be : Backend) (a : App) (i j : Z) :
  i <> j ->
  map url (sent_requests (log (perform be (OpGetRepository i) a)))
  <> map url (sent_requests (log (perform be (OpGetRepository j) a)))
  /\ map url (sent_requests (log (perform be (OpDeleteRepository i) a)))
     <> map url (sent_requests (log (perform be (OpDeleteRepository j) a)))
  /\ map url (sent_requests (log (perform be (OpStartAnalysis i) a)))
     <> map url (sent_requests (log (perform be (OpStartAnalysis j) a)))
  /\ map url (sent_requests (log (perform be (OpGetRepositoryAnalyses i) a)))
     <> map url (sent_requests (log (perform be (OpGetRepositoryAnalyses j) a)))
  /\ map url (sent_requests (log (perform be (OpGetAnalysis i) a)))
     <> map url (sent_requests (log (perform be (OpGetAnalysis j) a)))
  /\ map url (sent_requests (log (perform be (OpDeleteAnalysis i) a)))
     <> map url (sent_requests (log (perform be (OpDeleteAnalysis j) a))).
Proof.
  intros Hne.
  unfold perform, Api.getRepository, Api.deleteRepository, Api.startAnalysis,
    Api.getRepositoryAnalyses, Api.getAnalysis, Api.deleteAnalysis.
  rewrite !api_call_url.
  repeat split; intros H; apply app_inv_head in H; simpl in H;
    injection H as H; apply Hne, (inj pretty); exact H.
Qed.

Lemma resource_paths_distinct_witness :
  map url (sent_requests (log (perform Sample.down (OpGetAnalysis 7) (Sample.signed_in "tok123"))))
  <> map url (sent_requests (log (perform Sample.down (OpGetAnalysis 8) (Sample.signed_in "tok123")))).
Proof.
  destruct (resource_paths_distinct Sample.down (Sample.signed_in "tok123") 7 8)
    as (_ & _ & _ & _ & H & _); [discriminate | exact H].
Defined.

(** ** The session provider *)

Lemma login_run (tokenData : AuthToken) (a : App) :
  AuthContext.login tokenData a
  = (Normal tt,
     with_user (Some (token_user tokenData))
       (exec (Auth.setAuthToken (access_token tokenData)) a)).
Proof.
  unfold AuthContext.login, mbind, M_bind, exec, Auth.setAuthToken, modify.
  destruct (window_defined a); reflexivity.
Qed.

(** X7. In the browser, [login] completes normally, stores the access
    token, sets the user of the token data and sends nothing; outside
    the loading phase the session is then Authenticated. *)
Theorem login_authenticates (tokenData : AuthToken) (a : App) :
  window_defined a = true ->
  completion (AuthContext.login tokenData) a = Normal tt
  /\ user (exec (AuthContext.login tokenData) a) = Some (token_user tokenData)
  /\ Auth.getAuthToken (exec (AuthContext.login tokenData) a)
     = Some (access_token tokenData)
  /\ log (exec (AuthContext.login tokenData) a) = log a
  /\ (auth_loading a = false ->
      sessionState (exec (AuthContext.login tokenData) a) = Authenticated).
Proof.
  intros Hw. unfold completion, exec. rewrite login_run. simpl.
  unfold exec, Auth.setAuthToken, Auth.getAuthToken, sessionState,
    AuthContext.isAuthenticated.
  rewrite Hw. simpl. rewrite Hw.
  repeat split; try reflexivity.
  - apply lookup_insert_eq.
  - intros ->. reflexivity.
Qed.

Lemma login_authenticates_witness :
  Auth.getAuthToken (exec (AuthContext.login (Sample.token "bearer")) (Sample.mounted ∅))
  = Some "tok123".
Proof.
  destruct (login_authenticates (Sample.token "bearer") (Sample.mounted ∅))
    as (_ & _ & H & _); [reflexivity | exact H].
Defined.

(** X8. Rehydration: with a non-empty credential in the
    store and the identity fetch answered, [initAuth] ends
    Authenticated with the returned user, keeps the credential, and has
    sent exactly one request, the identity fetch, bearing the
    credential. *)
Theorem initAuth_rehydrates (be : Backend) (a : App) (tok : string) (u : User) :
  Auth.getAuthToken a = Some tok -> tok <> "" ->
  completion (Api.getCurrentUser be) a = Normal u ->
  sessionState (exec (AuthContext.initAuth be) a) = Authenticated
  /\ user (exec (AuthContext.initAuth be) a) = Some u
  /\ Auth.getAuthToken (exec (AuthContext.initAuth be) a) = Some tok
  /\ map (fun r => (method r, url r, authorization r))
         (sent_requests (new_events a (exec (AuthContext.initAuth be) a)))
     = [(GET, "/api/v1/auth/me", Some ("Bearer " +:+ tok))].
Proof.
  intros Ht Hne Hok. apply api_call_completion in Hok.
  assert (Htr : Js.truthy_opt (Auth.getAuthToken a) = true).
  { apply truthy_opt_true. eauto. }
  unfold exec. rewrite (initAuth_fetch_ok be a u Htr Hok). simpl.
  rewrite (new_events_app a _
             [EvRequest (Api.request_interceptor a
                           (Api.config GET "/api/v1/auth/me" [] None)) true])
    by reflexivity.
  unfold sessionState, AuthContext.isAuthenticated, authorization. simpl.
  rewrite (interceptor_bearer a _ tok Ht Hne).
  destruct (interceptor_keeps_config a (Api.config GET "/api/v1/auth/me" [] None))
    as (-> & -> & _).
  repeat split; try reflexivity; try exact Ht.
  all: simpl; rewrite lookup_insert_eq; reflexivity.
Qed.

Lemma initAuth_rehydrates_witness :
  sessionState (exec (AuthContext.initAuth Scenario.github)
                  (Sample.mounted {[Auth.AUTH_TOKEN_KEY := "tok123"]}))
  = Authenticated.
Proof.
  destruct (initAuth_rehydrates Scenario.github
              (Sample.mounted {[Auth.AUTH_TOKEN_KEY := "tok123"]}) "tok123" Sample.octocat)
    as (H & _); [reflexivity | discriminate | reflexivity | exact H].
Defined.

(** X9. Whatever the store holds and whatever the backend answers,
    [initAuth] completes normally, ends the loading phase (the session
    is never left Unknown), sends at most one request and shows no
    alert. *)
Theorem initAuth_settles (be : Backend) (a : App) :
  completion (AuthContext.initAuth be) a = Normal tt
  /\ auth_loading (exec (AuthContext.initAuth be) a) = false
  /\ sessionState (exec (AuthContext.initAuth be) a) <> Unknown
  /\ (List.length (sent_requests (new_events a (exec (AuthContext.initAuth be) a))) <= 1)%nat
  /\ alerts (new_events a (exec (AuthContext.initAuth be) a)) = [].
Proof.
  unfold completion, exec, sessionState.
  destruct (Js.truthy_opt (Auth.getAuthToken a)) eqn:Htr.
  - destruct (auth_me be (log a)
                (Api.request_interceptor a (Api.config GET "/api/v1/auth/me" [] None)))
      as [u|e] eqn:Hbe.
    + rewrite (initAuth_fetch_ok be a u Htr Hbe). simpl.
      rewrite (new_events_app a _ [EvRequest
                 (Api.request_interceptor a (Api.config GET "/api/v1/auth/me" [] None)) true])
        by reflexivity.
      simpl. repeat split; auto; discriminate.
    + rewrite (initAuth_fetch_fails be a e Htr Hbe). simpl.
      set (a1 := emit (EvConsoleError "Failed to get current user:")
                   (emit (EvRequest (Api.request_interceptor a
                            (Api.config GET "/api/v1/auth/me" [] None)) false) a)).
      destruct (removeAuthToken_frame a1) as (Hl & _).
      rewrite (new_events_app a _
                 [EvRequest (Api.request_interceptor a
                               (Api.config GET "/api/v1/auth/me" [] None)) false;
                  EvConsoleError "Failed to get current user:"])
        by (simpl; rewrite Hl; subst a1; simpl; rewrite <- app_assoc; reflexivity).
      simpl. repeat split; auto;
        destruct (AuthContext.isAuthenticated _); discriminate.
  - rewrite (initAuth_no_token be a Htr). simpl.
    rewrite (new_events_app a _ []) by (simpl; symmetry; apply app_nil_r).
    simpl. repeat split; auto;
      destruct (AuthContext.isAuthenticated _); discriminate.
Qed.

(** X10. An empty string in the store counts as no credential for
    [initAuth]: nothing is sent, and the empty string stays in the
    store; it is not purged. *)
Theorem initAuth_empty_credential (be : Backend) (a : App) :
  Auth.getAuthToken a = Some "" ->
  log (exec (AuthContext.initAuth be) a) = log a
  /\ Auth.getAuthToken (exec (AuthContext.initAuth be) a) = Some ""
  /\ user (exec (AuthContext.initAuth be) a) = user a
  /\ auth_loading (exec (AuthContext.initAuth be) a) = false.
Proof.
  intros Ht. unfold exec.
  rewrite initAuth_no_token by (rewrite Ht; reflexivity). simpl.
  repeat split. exact Ht.
Qed.

Lemma initAuth_empty_credential_witness :
  Auth.getAuthToken (exec (AuthContext.initAuth Sample.down)
                       (Sample.mounted {[Auth.AUTH_TOKEN_KEY := ""]})) = Some "".
Proof.
  destruct (initAuth_empty_credential Sample.down
              (Sample.mounted {[Auth.AUTH_TOKEN_KEY := ""]})) as (_ & H & _);
    [reflexivity | exact H].
Defined.

(** X11. [logout] sends exactly one request, the backend logout, and
    sends it before purging the store: it bears the credential held
    when [logout] was invoked.  No alert is shown. *)
Theorem logout_request (be : Backend) (a : App) :
  map (fun r => (method r, url r))
      (sent_requests (new_events a (exec (AuthContext.logout be) a)))
  = [(POST, "/api/v1/auth/logout")]
  /\ (forall tok, Auth.getAuthToken a = Some tok -> tok <> "" ->
        map authorization (sent_requests (new_events a (exec (AuthContext.logout be) a)))
        = [Some ("Bearer " +:+ tok)])
  /\ alerts (new_events a (exec (AuthContext.logout be) a)) = [].
Proof.
  unfold exec. rewrite logout_run. simpl.
  set (req := Api.request_interceptor a (Api.config POST "/api/v1/auth/logout" [] None)).
  assert (Hnew : exists evs,
    new_events a (with_user None (exec Auth.removeAuthToken
      (match auth_logout be (log a) req with
       | Success _ => emit (EvRequest req true) a
       | Failure _ => emit (EvConsoleError "Logout error:") (emit (EvRequest req false) a)
       end))) = evs
    /\ sent_requests evs = [req] /\ alerts evs = []).
  { destruct (auth_logout be (log a) req) as [[]|e].
    - exists [EvRequest req true]. split; [|split; reflexivity].
      apply new_events_app. simpl.
      destruct (removeAuthToken_frame (emit (EvRequest req true) a)) as (-> & _).
      reflexivity.
    - exists [EvRequest req false; EvConsoleError "Logout error:"].
      split; [|split; reflexivity].
      apply new_events_app. simpl.
      destruct (removeAuthToken_frame
                  (emit (EvConsoleError "Logout error:") (emit (EvRequest req false) a)))
        as (-> & _).
      simpl. rewrite <- app_assoc. reflexivity. }
  destruct Hnew as (evs & -> & Hreq & Hal). rewrite Hreq, Hal. simpl.
  subst req.
  destruct (interceptor_keeps_config a (Api.config POST "/api/v1/auth/logout" [] None))
    as (-> & -> & _).
  repeat split; try reflexivity.
  intros tok Ht Hne. unfold authorization.
  rewrite (interceptor_bearer a _ tok Ht Hne). simpl.
  rewrite lookup_insert_eq. reflexivity.
Qed.

Lemma logout_request_witness :
  map authorization
      (sent_requests (new_events (Sample.signed_in "tok123")
                        (exec (AuthContext.logout Sample.down) (Sample.signed_in "tok123"))))
  = [Some "Bearer tok123"].
Proof.
  destruct (logout_request Sample.down (Sample.signed_in "tok123")) as (_ & H & _).
  apply (H "tok123"); [reflexivity | discriminate].
Defined.

(** X12. The session transitions decide the header of what follows: in
    the browser, after [login] with a non-empty access token every
    operation of the gateway bears that token; after [logout] every
    operation goes out without [Authorization]. *)
Theorem session_drives_authorization (be : Backend) (op : Operation) (a : App)
    (tokenData : AuthToken) :
  window_defined a = true -> access_token tokenData <> "" ->
  map authorization
      (sent_requests
         (new_events (exec (AuthContext.login tokenData) a)
            (perform be op (exec (AuthContext.login tokenData) a))))
  = [Some ("Bearer " +:+ access_token tokenData)]
  /\ map authorization
       (sent_requests
          (new_events (exec (AuthContext.logout be) a)
             (perform be op (exec (AuthContext.logout be) a))))
     = [None].
Proof.
  intros Hw Hne.
  assert (Hgen : forall a0 : App,
    exists cfg, headers cfg = Api.default_headers
      /\ sent_requests (new_events a0 (perform be op a0))
         = [Api.request_interceptor a0 cfg]).
  { intros a0. destruct (perform_one_call be op) as (cfg & Hh & Hrun).
    exists cfg. split; [exact Hh|]. destruct (Hrun a0) as [ok ->].
    rewrite (new_events_app a0 _ [EvRequest (Api.request_interceptor a0 cfg) ok])
      by reflexivity.
    reflexivity. }
  split.
  - destruct (Hgen (exec (AuthContext.login tokenData) a)) as (cfg & Hh & ->).
    simpl. unfold authorization.
    rewrite (interceptor_bearer _ cfg (access_token tokenData)); [|  |exact Hne].
    + rewrite lookup_insert_eq. reflexivity.
    + unfold exec. rewrite login_run. simpl.
      unfold exec, Auth.setAuthToken, Auth.getAuthToken. rewrite Hw. simpl. rewrite Hw.
      apply lookup_insert_eq.
  - destruct (Hgen (exec (AuthContext.logout be) a)) as (cfg & Hh & ->).
    simpl. unfold authorization.
    rewrite interceptor_anonymous, Hh; [reflexivity|].
    left. unfold exec. rewrite logout_run. simpl.
    apply (getAuthToken_removed
             (match auth_logout be (log a) _ with
              | Success _ => _ | Failure _ => _ end)).
Qed.

Lemma session_drives_authorization_witness :
  map authorization
      (sent_requests
         (new_events (exec (AuthContext.login (Sample.token "bearer")) (Sample.mounted ∅))
            (perform Sample.down OpSyncRepositories
               (exec (AuthContext.login (Sample.token "bearer")) (Sample.mounted ∅)))))
  = [Some "Bearer tok123"].
Proof.
  destruct (session_drives_authorization Sample.down OpSyncRepositories
              (Sample.mounted ∅) (Sample.token "bearer")) as (H & _);
    [reflexivity | discriminate | exact H].
Defined.

(** ** The OAuth redirect handler *)

(** X13. A rejected code exchange leaves no partial session: the user
    and the store are as before, nothing is navigated, and the error
    shown is the backend's detail when that is non-empty, else
    "Authentication failed". *)
Theorem exchange_failure_keeps_session (be : Backend) (sp : list (string * string))
    (a : App) (c : string) (e : AxiosError) :
  (AuthCallback.searchParams_get sp "error" = None
   \/ AuthCallback.searchParams_get sp "error" = Some "") ->
  AuthCallback.searchParams_get sp "code" = Some c -> c <> "" ->
  completion (Api.githubCallback be c
                (Js.or_undefined (AuthCallback.searchParams_get sp "state"))) a
  = Thrown e ->
  same_session a (exec (AuthCallback.handleCallback be sp) a)
  /\ navigations (new_events a (exec (AuthCallback.handleCallback be sp) a)) = []
  /\ (forall d, error_detail e = Some d -> d <> "" ->
        cb_error (exec (AuthCallback.handleCallback be sp) a) = Some d)
  /\ (error_detail e = None \/ error_detail e = Some "" ->
        cb_error (exec (AuthCallback.handleCallback be sp) a)
        = Some "Authentication failed").
Proof.
  intros He Hc Hne Hfail. apply truthy_opt_false in He.
  apply api_call_thrown in Hfail. unfold exec.
  rewrite (handleCallback_exchange be sp a c He Hc Hne). simpl.
  unfold exchange_request. rewrite Hfail.
  set (req := Api.request_interceptor a _).
  rewrite (new_events_app a _ [EvRequest req false; EvConsoleError "Callback error:"])
    by (simpl; rewrite <- app_assoc; reflexivity).
  unfold same_session. simpl. repeat split.
  - intros d Hd Hd'. rewrite Hd. simpl. apply truthy_spec in Hd'. rewrite Hd'. reflexivity.
  - intros [Hd|Hd]; rewrite Hd; reflexivity.
Qed.

Lemma exchange_failure_keeps_session_witness :
  cb_error (exec (AuthCallback.handleCallback Sample.down [("code", "abc123")])
              (Sample.mounted ∅))
  = Some "Authentication failed".
Proof.
  destruct (exchange_failure_keeps_session Sample.down [("code", "abc123")]
              (Sample.mounted ∅) "abc123" Sample.network_error)
    as (_ & _ & _ & H);
    [left; reflexivity | reflexivity | discriminate | reflexivity |].
  apply H. left. reflexivity.
Defined.

(** X14. An answered code exchange logs the user of the token data in
    and navigates to the dashboard, once; no error is set and no alert
    is shown. *)
Theorem exchange_success_enters (be : Backend) (sp : list (string * string))
    (a : App) (c : string) (tokenData : AuthToken) :
  (AuthCallback.searchParams_get sp "error" = None
   \/ AuthCallback.searchParams_get sp "error" = Some "") ->
  AuthCallback.searchParams_get sp "code" = Some c -> c <> "" ->
  completion (Api.githubCallback be c
                (Js.or_undefined (AuthCallback.searchParams_get sp "state"))) a
  = Normal tokenData ->
  user (exec (AuthCallback.handleCallback be sp) a) = Some (token_user tokenData)
  /\ navigations (new_events a (exec (AuthCallback.handleCallback be sp) a))
     = ["/dashboard"]
  /\ cb_error (exec (AuthCallback.handleCallback be sp) a) = cb_error a
  /\ alerts (new_events a (exec (AuthCallback.handleCallback be sp) a)) = [].
Proof.
  intros He Hc Hne Hok. apply truthy_opt_false in He.
  apply api_call_completion in Hok. unfold exec.
  rewrite (handleCallback_exchange be sp a c He Hc Hne). simpl.
  unfold exchange_request. rewrite Hok.
  set (req := Api.request_interceptor a _).
  destruct (setAuthToken_frame (access_token tokenData) (emit (EvRequest req true) a))
    as (Hl & Hcb & _).
  rewrite (new_events_app a _ [EvRequest req true; EvRouterPush "/dashboard"])
    by (simpl; rewrite Hl; simpl; rewrite <- app_assoc; reflexivity).
  simpl. rewrite Hcb. repeat split.
Qed.

Lemma exchange_success_enters_witness :
  navigations
    (new_events (Sample.mounted ∅)
       (exec (AuthCallback.handleCallback Scenario.github [("code", "abc123")])
          (Sample.mounted ∅)))
  = ["/dashboard"].
Proof.
  destruct (exchange_success_enters Scenario.github [("code", "abc123")]
              (Sample.mounted ∅) "abc123" (Sample.token "bearer"))
    as (_ & H & _);
    [left; reflexivity | reflexivity | discriminate | reflexivity | exact H].
Defined.

(** X15. Whatever the callback URL and the backend's answer,
    [handleCallback] completes normally, shows no alert, and ends in
    one of two visible outcomes: a navigation to the dashboard, or an
    error message set and no navigation. *)
Theorem handleCallback_outcomes (be : Backend) (sp : list (string * string)) (a : App) :
  completion (AuthCallback.handleCallback be sp) a = Normal tt
  /\ alerts (new_events a (exec (AuthCallback.handleCallback be sp) a)) = []
  /\ (navigations (new_events a (exec (AuthCallback.handleCallback be sp) a))
      = ["/dashboard"]
      \/ (navigations (new_events a (exec (AuthCallback.handleCallback be sp) a)) = []
          /\ exists msg, cb_error (exec (AuthCallback.handleCallback be sp) a) = Some msg)).
Proof.
  unfold completion, exec.
  destruct (Js.truthy_opt (AuthCallback.searchParams_get sp "error")) eqn:He.
  { rewrite handleCallback_denied by exact He. simpl.
    rewrite (new_events_app a _ []) by (simpl; symmetry; apply app_nil_r).
    simpl. eauto 6. }
  destruct (Js.truthy_opt (AuthCallback.searchParams_get sp "code")) eqn:Hc.
  2:{ rewrite handleCallback_missing by assumption. simpl.
      rewrite (new_events_app a _ []) by (simpl; symmetry; apply app_nil_r).
      simpl. eauto 6. }
  apply truthy_opt_true in Hc as (c & Hc & Hne).
  rewrite (handleCallback_exchange be sp a c He Hc Hne). simpl.
  set (req := exchange_request a c _).
  destruct (auth_github_callback be (log a) req) as [td|e].
  - destruct (setAuthToken_frame (access_token td) (emit (EvRequest req true) a))
      as (Hl & _).
    rewrite (new_events_app a _ [EvRequest req true; EvRouterPush "/dashboard"])
      by (simpl; rewrite Hl; simpl; rewrite <- app_assoc; reflexivity).
    simpl. auto.
  - rewrite (new_events_app a _ [EvRequest req false; EvConsoleError "Callback error:"])
      by (simpl; rewrite <- app_assoc; reflexivity).
    simpl. eauto 6.
Qed.

(** ** The dashboard *)

Lemma loadStats_run be (a : App) :
  Dashboard.loadStats be a
  = (Normal tt,
     match repositories_stats be (log a) (stats_request a) with
     | Success repoStats =>
         with_stats (Some repoStats) (emit (EvRequest (stats_request a) true) a)
     | Failure _ =>
         emit (EvConsoleError "Failed to load stats:")
           (emit (EvRequest (stats_request a) false) a)
     end).
Proof.
  unfold Dashboard.loadStats, try_catch, mbind, M_bind, Api.getRepositoryStats.
  rewrite api_call_run. fold (stats_request a).
  destruct (repositories_stats be (log a) (stats_request a)); reflexivity.
Qed.

Lemma loadRepositories_run be (a : App) :
  Dashboard.loadRepositories be a
  = (Normal tt,
     let req := Api.request_interceptor a
                  (Api.config GET "/api/v1/repositories/list"
                     [("skip", PNum 0); ("limit", PNum 100)] None) in
     with_dash_loading false
       (match repositories_list be (log a) req with
        | Success repos =>
            with_repositories repos (emit (EvRequest req true) (with_dash_loading true a))
        | Failure _ =>
            emit (EvConsoleError "Failed to load repositories:")
              (emit (EvRequest req false) (with_dash_loading true a))
        end)).
Proof.
  unfold Dashboard.loadRepositories, try_finally, try_catch, mbind, M_bind,
    Api.listRepositories, modify.
  rewrite api_call_run. simpl.
  change (Api.request_interceptor (with_dash_loading true a)
            (Api.config GET "/api/v1/repositories/list"
               [("skip", PNum 0); ("limit", PNum 100)] None))
    with (Api.request_interceptor a
            (Api.config GET "/api/v1/repositories/list"
               [("skip", PNum 0); ("limit", PNum 100)] None)).
  destruct (repositories_list be (log a) _); reflexivity.
Qed.

Lemma handleSyncRepositories_normal be (a : App) :
  completion (Dashboard.handleSyncRepositories be) a = Normal tt.
Proof.
  unfold completion, Dashboard.handleSyncRepositories, try_finally, try_catch,
    mbind, M_bind, Api.syncRepositories, modify.
  rewrite api_call_run.
  destruct (repositories_sync be _ _) as [result|e]; [|reflexivity].
  rewrite loadStats_run. reflexivity.
Qed.

Lemma handleAnalyzeRepository_rejected be (a : App) (repoId : Z) (repoName : string)
    (e : AxiosError) :
  analysis_analyze be (log a) (analyze_request a repoId) = Failure e ->
  exec (Dashboard.handleAnalyzeRepository be repoId repoName) a
  = with_analyzingRepos (fun prev => prev ∖ {[repoId]})
      (emit (EvAlert ("❌ Error: "
                      +:+ Js.or_else (error_detail e) "Failed to start analysis"))
         (emit (EvConsoleError "Failed to start analysis:")
            (emit (EvRequest (analyze_request a repoId) false)
               (with_analyzingRepos (fun prev => prev ∪ {[repoId]}) a))))
  /\ exec (DashboardV1.handleAnalyzeRepository be repoId repoName) a
     = exec (Dashboard.handleAnalyzeRepository be repoId repoName) a.
Proof.
  intros Hbe.
  unfold exec, Dashboard.handleAnalyzeRepository, DashboardV1.handleAnalyzeRepository,
    try_finally, try_catch, mbind, M_bind, Api.startAnalysis, modify.
  rewrite api_call_run. simpl log.
  change (Api.request_interceptor (with_analyzingRepos (fun prev => prev ∪ {[repoId]}) a)
            (Api.config POST ("/api/v1/analysis/analyze/" +:+ Js.num_to_string repoId)
               [] None))
    with (analyze_request a repoId).
  rewrite Hbe. split; reflexivity.
Qed.

Lemma handleAnalyzeRepository_normal be (a : App) (repoId : Z) (repoName : string) :
  completion (Dashboard.handleAnalyzeRepository be repoId repoName) a = Normal tt
  /\ completion (DashboardV1.handleAnalyzeRepository be repoId repoName) a = Normal tt.
Proof.
  unfold completion, Dashboard.handleAnalyzeRepository,
    DashboardV1.handleAnalyzeRepository, try_finally, try_catch, mbind, M_bind,
    Api.startAnalysis, modify.
  rewrite api_call_run.
  destruct (analysis_analyze be _ _) as [result|e]; [|split; reflexivity].
  destruct (String.eqb (status result) "completed");
    [|destruct (String.eqb (status result) "failed")]; split; reflexivity.
Qed.

(** X16. [loadRepositories] completes normally whatever the backend
    answers, asks for the first page (skip 0, limit 100), and always
    ends with the loading flag off; on an answer the list is replaced,
    on a failure it is left as it was, and the failure is only written
    to the console: no alert. *)
Theorem loadRepositories_outcomes (be : Backend) (a : App) :
  completion (Dashboard.loadRepositories be) a = Normal tt
  /\ dash_loading (exec (Dashboard.loadRepositories be) a) = false
  /\ map (fun r => (method r, url r, params r))
         (sent_requests (new_events a (exec (Dashboard.loadRepositories be) a)))
     = [(GET, "/api/v1/repositories/list", [("skip", PNum 0); ("limit", PNum 100)])]
  /\ alerts (new_events a (exec (Dashboard.loadRepositories be) a)) = []
  /\ (forall repos, completion (Api.listRepositories be None None) a = Normal repos ->
        repositories (exec (Dashboard.loadRepositories be) a) = repos)
  /\ (forall e, completion (Api.listRepositories be None None) a = Thrown e ->
        repositories (exec (Dashboard.loadRepositories be) a) = repositories a).
Proof.
  unfold completion at 1, exec. rewrite loadRepositories_run. cbv zeta.
  set (req := Api.request_interceptor a _).
  assert (Hreq : (method req, url req, params req)
                 = (GET, "/api/v1/repositories/list",
                    [("skip", PNum 0); ("limit", PNum 100)])).
  { subst req.
    destruct (interceptor_keeps_config a
                (Api.config GET "/api/v1/repositories/list"
                   [("skip", PNum 0); ("limit", PNum 100)] None)) as (-> & -> & -> & _).
    reflexivity. }
  split; [reflexivity|].
  destruct (repositories_list be (log a) req) as [repos|e] eqn:Hbe.
  - rewrite (new_events_app a _ [EvRequest req true]) by reflexivity.
    simpl. rewrite Hreq. repeat split.
    + intros repos' H. apply api_call_completion in H.
      simpl in H. unfold req in Hbe. congruence.
    + intros e H. apply api_call_thrown in H. simpl in H. unfold req in Hbe. congruence.
  - rewrite (new_events_app a _ [EvRequest req false;
                                 EvConsoleError "Failed to load repositories:"])
      by (simpl; rewrite <- app_assoc; reflexivity).
    simpl. rewrite Hreq. repeat split.
    intros repos' H. apply api_call_completion in H. simpl in H. unfold req in Hbe.
    congruence.
Qed.

(** X17. [loadStats] completes normally whatever the backend answers:
    an answer replaces the stats, a failure leaves them as they were
    and is only written to the console.  The repository list is not
    touched. *)
Theorem loadStats_outcomes (be : Backend) (a : App) :
  completion (Dashboard.loadStats be) a = Normal tt
  /\ alerts (new_events a (exec (Dashboard.loadStats be) a)) = []
  /\ repositories (exec (Dashboard.loadStats be) a) = repositories a
  /\ (forall repoStats, completion (Api.getRepositoryStats be) a = Normal repoStats ->
        stats (exec (Dashboard.loadStats be) a) = Some repoStats)
  /\ (forall e, completion (Api.getRepositoryStats be) a = Thrown e ->
        stats (exec (Dashboard.loadStats be) a) = stats a).
Proof.
  unfold completion at 1, exec. rewrite loadStats_run. simpl.
  split; [reflexivity|].
  destruct (repositories_stats be (log a) (stats_request a)) as [st|e] eqn:Hbe.
  - rewrite (new_events_app a _ [EvRequest (stats_request a) true]) by reflexivity.
    simpl. repeat split.
    + intros st' H. apply api_call_completion in H. unfold stats_request in Hbe.
      simpl in H. congruence.
    + intros e H. apply api_call_thrown in H. unfold stats_request in Hbe.
      simpl in H. congruence.
  - rewrite (new_events_app a _ [EvRequest (stats_request a) false;
                                 EvConsoleError "Failed to load stats:"])
      by (simpl; rewrite <- app_assoc; reflexivity).
    simpl. repeat split.
    intros st' H. apply api_call_completion in H. unfold stats_request in Hbe.
    simpl in H. congruence.
Qed.

Lemma alerts_app (l1 l2 : list Event) : alerts (l1 ++ l2) = alerts l1 ++ alerts l2.
Proof.
  induction l1 as [|ev l1 IH]; simpl; [reflexivity|].
  destruct ev; simpl; rewrite IH; reflexivity.
Qed.

(** X18. Whatever the backend answers, [handleSyncRepositories]
    completes normally, ends with the syncing flag off, and has shown
    exactly one alert. *)
Theorem handleSyncRepositories_settles (be : Backend) (a : App) :
  completion (Dashboard.handleSyncRepositories be) a = Normal tt
  /\ syncing (exec (Dashboard.handleSyncRepositories be) a) = false
  /\ List.length (alerts (new_events a (exec (Dashboard.handleSyncRepositories be) a)))
     = 1%nat.
Proof.
  split; [apply handleSyncRepositories_normal|].
  destruct (repositories_sync be (log a) (sync_request a)) as [result|e] eqn:Hbe.
  - rewrite (handleSyncRepositories_synced be a result Hbe). cbv zeta.
    split; [reflexivity|].
    destruct (repositories_stats be _ (stats_request a)).
    + rewrite (new_events_app a _
                 [EvRequest (sync_request a) true; EvRequest (stats_request a) true;
                  EvAlert ("Successfully synced " +:+ Js.num_to_string (synced_count result)
                           +:+ " repositories!")])
        by (simpl; rewrite <- !app_assoc; reflexivity).
      reflexivity.
    + rewrite (new_events_app a _
                 [EvRequest (sync_request a) true; EvRequest (stats_request a) false;
                  EvConsoleError "Failed to load stats:";
                  EvAlert ("Successfully synced " +:+ Js.num_to_string (synced_count result)
                           +:+ " repositories!")])
        by (simpl; rewrite <- !app_assoc; reflexivity).
      reflexivity.
  - rewrite (handleSyncRepositories_failed be a e Hbe).
    split; [reflexivity|].
    rewrite (new_events_app a _
               [EvRequest (sync_request a) false;
                EvConsoleError "Failed to sync repositories:";
                EvAlert (Js.or_else (error_detail e) "Failed to sync repositories")])
      by (simpl; rewrite <- !app_assoc; reflexivity).
    reflexivity.
Qed.

(** X19. Whatever the backend answers, both versions of
    [handleAnalyzeRepository] complete normally, send exactly one
    request, and leave the set of repositories under analysis as it was
    without the triggered one: the marker never stays behind, the
    markers of other repositories are kept, and a repository that was
    already marked (a second click) is unmarked when the first call
    returns. *)
Theorem handleAnalyzeRepository_marker (be : Backend) (a : App) (repoId : Z)
    (repoName : string) :
  completion (Dashboard.handleAnalyzeRepository be repoId repoName) a = Normal tt
  /\ completion (DashboardV1.handleAnalyzeRepository be repoId repoName) a = Normal tt
  /\ analyzingRepos (exec (Dashboard.handleAnalyzeRepository be repoId repoName) a)
     = analyzingRepos a ∖ {[repoId]}
  /\ analyzingRepos (exec (DashboardV1.handleAnalyzeRepository be repoId repoName) a)
     = analyzingRepos a ∖ {[repoId]}
  /\ sent_requests
       (new_events a (exec (Dashboard.handleAnalyzeRepository be repoId repoName) a))
     = [analyze_request a repoId]
  /\ sent_requests
       (new_events a (exec (DashboardV1.handleAnalyzeRepository be repoId repoName) a))
     = [analyze_request a repoId].
Proof.
  destruct (handleAnalyzeRepository_normal be a repoId repoName) as [Hn2 Hn1].
  split; [exact Hn2|]. split; [exact Hn1|].
  assert (Hset : (analyzingRepos a ∪ {[repoId]}) ∖ {[repoId]}
                 = analyzingRepos a ∖ {[repoId]}).
  { apply set_eq. intros x. rewrite !elem_of_difference, elem_of_union. tauto. }
  destruct (analysis_analyze be (log a) (analyze_request a repoId)) as [result|e] eqn:Hbe.
  - rewrite (handleAnalyzeRepository_answered be a repoId repoName result Hbe).
    destruct (handleAnalyzeRepository_v1_answered be a repoId repoName result Hbe)
      as [msg ->].
    rewrite (new_events_app a _ [EvRequest (analyze_request a repoId) true;
                                 routed repoName result])
      by (simpl; rewrite <- app_assoc; reflexivity).
    rewrite (new_events_app a _ [EvRequest (analyze_request a repoId) true; EvAlert msg])
      by (simpl; rewrite <- app_assoc; reflexivity).
    simpl. unfold routed. destruct (String.eqb (status result) "failed"); auto.
  - destruct (handleAnalyzeRepository_rejected be a repoId repoName e Hbe) as [H2 H1].
    rewrite H1, H2.
    rewrite (new_events_app a _
               [EvRequest (analyze_request a repoId) false;
                EvConsoleError "Failed to start analysis:";
                EvAlert ("❌ Error: "
                         +:+ Js.or_else (error_detail e) "Failed to start analysis")])
      by (simpl; rewrite <- !app_assoc; reflexivity).
    simpl. auto.
Qed.

(** X20. When [startAnalysis] is rejected, the trigger navigates
    nowhere and shows one alert: "❌ Error: " followed by the backend's
    detail when that is non-empty, else by "Failed to start analysis". *)
Theorem handleAnalyzeRepository_rejection (be : Backend) (a : App) (repoId : Z)
    (repoName : string) (e : AxiosError) :
  completion (Api.startAnalysis be repoId) a = Thrown e ->
  navigations (new_events a (exec (Dashboard.handleAnalyzeRepository be repoId repoName) a))
  = []
  /\ (forall d, error_detail e = Some d -> d <> "" ->
        alerts (new_events a (exec (Dashboard.handleAnalyzeRepository be repoId repoName) a))
        = ["❌ Error: " +:+ d])
  /\ (error_detail e = None \/ error_detail e = Some "" ->
        alerts (new_events a (exec (Dashboard.handleAnalyzeRepository be repoId repoName) a))
        = ["❌ Error: Failed to start analysis"]).
Proof.
  intros Hfail. apply api_call_thrown in Hfail.
  change (analysis_analyze be (log a) (analyze_request a repoId) = Failure e) in Hfail.
  destruct (handleAnalyzeRepository_rejected be a repoId repoName e Hfail) as [-> _].
  rewrite (new_events_app a _
             [EvRequest (analyze_request a repoId) false;
              EvConsoleError "Failed to start analysis:";
              EvAlert ("❌ Error: "
                       +:+ Js.or_else (error_detail e) "Failed to start analysis")])
    by (simpl; rewrite <- !app_assoc; reflexivity).
  simpl. repeat split.
  - intros d Hd Hne. rewrite Hd. simpl. apply truthy_spec in Hne. rewrite Hne. reflexivity.
  - intros [Hd|Hd]; rewrite Hd; reflexivity.
Qed.

Lemma handleAnalyzeRepository_rejection_witness :
  alerts (new_events (Sample.signed_in "tok123")
            (exec (Dashboard.handleAnalyzeRepository Sample.down 42 "hello")
               (Sample.signed_in "tok123")))
  = ["❌ Error: Failed to start analysis"].
Proof.
  destruct (handleAnalyzeRepository_rejection Sample.down (Sample.signed_in "tok123")
              42 "hello" Sample.network_error) as (_ & _ & H); [reflexivity|].
  apply H. left. reflexivity.
Defined.

(** X21. The two versions of the trigger differ only in how they react
    to an answer whose status is not "failed": when the call is
    rejected, or answered with the status "failed", they leave the same
    state and the same trace. *)
Theorem trigger_versions_agree (be : Backend) (a : App) (repoId : Z) (repoName : string) :
  (forall e, completion (Api.startAnalysis be repoId) a = Thrown e ->
     exec (DashboardV1.handleAnalyzeRepository be repoId repoName) a
     = exec (Dashboard.handleAnalyzeRepository be repoId repoName) a)
  /\ (forall result, completion (Api.startAnalysis be repoId) a = Normal result ->
        status result = "failed" ->
        exec (DashboardV1.handleAnalyzeRepository be repoId repoName) a
        = exec (Dashboard.handleAnalyzeRepository be repoId repoName) a).
Proof.
  split.
  - intros e Hfail. apply api_call_thrown in Hfail.
    apply (handleAnalyzeRepository_rejected be a repoId repoName e Hfail).
  - intros result Hok Hst. apply api_call_completion in Hok.
    change (analysis_analyze be (log a) (analyze_request a repoId) = Success result) in Hok.
    rewrite (handleAnalyzeRepository_answered be a repoId repoName result Hok).
    unfold exec, DashboardV1.handleAnalyzeRepository, try_finally, try_catch, mbind,
      M_bind, Api.startAnalysis, modify.
    rewrite api_call_run. simpl log.
    change (Api.request_interceptor (with_analyzingRepos (fun prev => prev ∪ {[repoId]}) a)
              (Api.config POST ("/api/v1/analysis/analyze/" +:+ Js.num_to_string repoId)
                 [] None))
      with (analyze_request a repoId).
    rewrite Hok. unfold routed. rewrite Hst. reflexivity.
Qed.

Lemma trigger_versions_agree_witness :
  exec (DashboardV1.handleAnalyzeRepository
          (Sample.answering {| analysis_id := 7; status := "failed" |}) 42 "hello")
    (Sample.signed_in "tok123")
  = exec (Dashboard.handleAnalyzeRepository
            (Sample.answering {| analysis_id := 7; status := "failed" |}) 42 "hello")
      (Sample.signed_in "tok123").
Proof.
  destruct (trigger_versions_agree
              (Sample.answering {| analysis_id := 7; status := "failed" |})
              (Sample.signed_in "tok123") 42 "hello") as (_ & H).
  apply (H {| analysis_id := 7; status := "failed" |}); reflexivity.
Defined.

(** X22. The dashboard's handlers never touch the session: the user,
    the loading flag of the provider, the store and the callback's
    error are the same after [loadRepositories], [loadStats],
    [handleSyncRepositories] and both versions of
    [handleAnalyzeRepository], whatever the backend answers. *)
Theorem dashboard_keeps_session (be : Backend) (a : App) (repoId : Z) (repoName : string) :
  (same_session a (exec (Dashboard.loadRepositories be) a)
   /\ cb_error (exec (Dashboard.loadRepositories be) a) = cb_error a)
  /\ (same_session a (exec (Dashboard.loadStats be) a)
      /\ cb_error (exec (Dashboard.loadStats be) a) = cb_error a)
  /\ (same_session a (exec (Dashboard.handleSyncRepositories be) a)
      /\ cb_error (exec (Dashboard.handleSyncRepositories be) a) = cb_error a)
  /\ (same_session a (exec (Dashboard.handleAnalyzeRepository be repoId repoName) a)
      /\ cb_error (exec (Dashboard.handleAnalyzeRepository be repoId repoName) a)
         = cb_error a)
  /\ (same_session a (exec (DashboardV1.handleAnalyzeRepository be repoId repoName) a)
      /\ cb_error (exec (DashboardV1.handleAnalyzeRepository be repoId repoName) a)
         = cb_error a).
Proof.
  unfold same_session. repeat apply conj.
  all: try (unfold exec; rewrite loadRepositories_run; cbv zeta;
            destruct (repositories_list be _ _); reflexivity).
  all: try (unfold exec; rewrite loadStats_run;
            destruct (repositories_stats be _ _); reflexivity).
  all: try (destruct (repositories_sync be (log a) (sync_request a)) as [result|e] eqn:Hbe;
            [ rewrite (handleSyncRepositories_synced be a result Hbe); cbv zeta;
              destruct (repositories_stats be _ _); reflexivity
            | rewrite (handleSyncRepositories_failed be a e Hbe); reflexivity ]).
  all: destruct (analysis_analyze be (log a) (analyze_request a repoId))
         as [result|e] eqn:Hbe;
       [ try rewrite (handleAnalyzeRepository_answered be a repoId repoName result Hbe);
         try (destruct (handleAnalyzeRepository_v1_answered be a repoId repoName result Hbe)
                as [msg ->]);
         reflexivity
       | destruct (handleAnalyzeRepository_rejected be a repoId repoName e Hbe) as [H2 H1];
         rewrite ?H1, H2; reflexivity ].
Qed.

(** ** Route guards *)

(** X23. While the provider is loading neither guard redirects.  After
    [initAuth], whatever the store held and the backend answered,
    exactly one of them does: the dashboard's guard sends an
    unauthenticated session to the login page, the home page's guard
    sends an authenticated one to the dashboard. *)
Theorem guards_after_initAuth (be : Backend) (a : App) :
  (auth_loading a = true ->
   exec Guards.requireUser a = a /\ exec Guards.homeRedirect a = a)
  /\ ((sessionState (exec (AuthContext.initAuth be) a) = Unauthenticated
       /\ navigations (new_events (exec (AuthContext.initAuth be) a)
                         (exec Guards.requireUser (exec (AuthContext.initAuth be) a)))
          = ["/login"]
       /\ exec Guards.homeRedirect (exec (AuthContext.initAuth be) a)
          = exec (AuthContext.initAuth be) a)
      \/ (sessionState (exec (AuthContext.initAuth be) a) = Authenticated
          /\ navigations (new_events (exec (AuthContext.initAuth be) a)
                            (exec Guards.homeRedirect (exec (AuthContext.initAuth be) a)))
             = ["/dashboard"]
          /\ exec Guards.requireUser (exec (AuthContext.initAuth be) a)
             = exec (AuthContext.initAuth be) a)).
Proof.
  split.
  - intros Hl. unfold exec, Guards.requireUser, Guards.homeRedirect. rewrite Hl.
    split; reflexivity.
  - assert (Hload : auth_loading (exec (AuthContext.initAuth be) a) = false).
    { unfold exec.
      destruct (Js.truthy_opt (Auth.getAuthToken a)) eqn:Htr.
      - destruct (auth_me be (log a)
                    (Api.request_interceptor a (Api.config GET "/api/v1/auth/me" [] None)))
          as [u|e] eqn:Hbe.
        + rewrite (initAuth_fetch_ok be a u Htr Hbe). reflexivity.
        + rewrite (initAuth_fetch_fails be a e Htr Hbe). reflexivity.
      - rewrite (initAuth_no_token be a Htr). reflexivity. }
    set (a' := exec (AuthContext.initAuth be) a) in *.
    unfold sessionState, exec, Guards.requireUser, Guards.homeRedirect,
      AuthContext.isAuthenticated, router_push, modify.
    rewrite Hload. simpl.
    destruct (user a') as [u|].
    + right. split; [reflexivity|]. split; [|reflexivity].
      rewrite (new_events_app a' _ [EvRouterPush "/dashboard"]) by reflexivity.
      reflexivity.
    + left. split; [reflexivity|]. split; [|reflexivity].
      rewrite (new_events_app a' _ [EvRouterPush "/login"]) by reflexivity.
      reflexivity.
Qed.

Lemma guards_after_initAuth_witness :
  exec Guards.requireUser (Sample.mounted ∅) = Sample.mounted ∅
  /\ exec Guards.homeRedirect (Sample.mounted ∅) = Sample.mounted ∅.
Proof.
  destruct (guards_after_initAuth Sample.down (Sample.mounted ∅)) as (H & _).
  apply H. reflexivity.
Defined.

(** X24. After a [logout] issued outside the loading phase, the
    dashboard's guard redirects to the login page, whatever the backend
    answered to the logout call. *)
Theorem guard_after_logout (be : Backend) (a : App) :
  auth_loading a = false ->
  navigations (new_events (exec (AuthContext.logout be) a)
                 (exec Guards.requireUser (exec (AuthContext.logout be) a)))
  = ["/login"].
Proof.
  intros Hl.
  assert (Hstate : auth_loading (exec (AuthContext.logout be) a) = false
                   /\ user (exec (AuthContext.logout be) a) = None).
  { unfold exec. rewrite logout_run. simpl.
    set (a1 := match auth_logout be (log a) _ with Success _ => _ | Failure _ => _ end).
    destruct (removeAuthToken_frame a1) as (_ & _ & -> & _).
    split; [|reflexivity].
    subst a1. destruct (auth_logout be (log a) _); exact Hl. }
  destruct Hstate as [Hl' Hu'].
  set (a' := exec (AuthContext.logout be) a) in *.
  unfold exec, Guards.requireUser, router_push, modify. rewrite Hl', Hu'. simpl.
  rewrite (new_events_app a' _ [EvRouterPush "/login"]) by reflexivity.
  reflexivity.
Qed.

Lemma guard_after_logout_witness :
  navigations
    (new_events (exec (AuthContext.logout Sample.down) (Sample.signed_in "tok123"))
       (exec Guards.requireUser
          (exec (AuthContext.logout Sample.down) (Sample.signed_in "tok123"))))
  = ["/login"].
Proof.
  apply (guard_after_logout Sample.down (Sample.signed_in "tok123")). reflexivity.
Defined.

(** ** The login page *)

Lemma handleGitHubLogin_run be (v : LoginPage.LoginView) :
  LoginPage.handleGitHubLogin be v
  = (Normal tt,
     let a := LoginPage.login_app v in
     let req := Api.request_interceptor a
                  (Api.config GET "/api/v1/auth/github/login" [] None) in
     match auth_github_login be (log a) req with
     | Success r =>
         LoginPage.set_location (auth_url r)
           (LoginPage.with_app (emit (EvRequest req true) a) (LoginPage.setLoading true v))
     | Failure _ =>
         LoginPage.setLoading false
           (LoginPage.with_app
              (emit (EvConsoleError "GitHub login error:") (emit (EvRequest req false) a))
              (LoginPage.setLoading true v))
     end).
Proof.
  unfold LoginPage.handleGitHubLogin, View.try_catch, mbind, View.MV_bind, View.lift,
    View.modify, Api.githubLogin.
  simpl. rewrite api_call_run.
  destruct (auth_github_login be _ _); reflexivity.
Qed.

(** X25. [handleGitHubLogin] completes normally whatever the backend
    answers and sends one request, the login endpoint.  On an answer
    the browser is sent to the returned authorization URL and the
    loading flag stays on; on a failure the location is untouched, the
    flag is turned off again (the button can be retried) and nothing is
    shown but a console error. *)
Theorem handleGitHubLogin_outcomes (be : Backend) (v : LoginPage.LoginView) :
  fst (LoginPage.handleGitHubLogin be v) = Normal tt
  /\ map (fun r => (method r, url r))
         (sent_requests
            (new_events (LoginPage.login_app v)
               (LoginPage.login_app (snd (LoginPage.handleGitHubLogin be v)))))
     = [(GET, "/api/v1/auth/github/login")]
  /\ alerts (new_events (LoginPage.login_app v)
               (LoginPage.login_app (snd (LoginPage.handleGitHubLogin be v)))) = []
  /\ (forall r, completion (Api.githubLogin be) (LoginPage.login_app v) = Normal r ->
        LoginPage.location_href (snd (LoginPage.handleGitHubLogin be v))
        = Some (auth_url r)
        /\ LoginPage.login_loading (snd (LoginPage.handleGitHubLogin be v)) = true)
  /\ (forall e, completion (Api.githubLogin be) (LoginPage.login_app v) = Thrown e ->
        LoginPage.location_href (snd (LoginPage.handleGitHubLogin be v))
        = LoginPage.location_href v
        /\ LoginPage.login_loading (snd (LoginPage.handleGitHubLogin be v)) = false).
Proof.
  rewrite handleGitHubLogin_run. cbv zeta. simpl fst. simpl snd.
  split; [reflexivity|].
  set (a := LoginPage.login_app v).
  destruct (interceptor_keeps_config a (Api.config GET "/api/v1/auth/github/login" [] None))
    as (Hm & Hu & _).
  destruct (auth_github_login be (log a)
              (Api.request_interceptor a
                 (Api.config GET "/api/v1/auth/github/login" [] None))) as [r|e] eqn:Hbe.
  - simpl.
    rewrite (new_events_app a _ [EvRequest (Api.request_interceptor a
               (Api.config GET "/api/v1/auth/github/login" [] None)) true])
      by reflexivity.
    simpl. rewrite Hm, Hu. repeat split.
    + apply api_call_completion in H. congruence.
    + apply api_call_thrown in H. congruence.
    + apply api_call_thrown in H. congruence.
  - simpl.
    rewrite (new_events_app a _ [EvRequest (Api.request_interceptor a
               (Api.config GET "/api/v1/auth/github/login" [] None)) false;
               EvConsoleError "GitHub login error:"])
      by (simpl; rewrite <- app_assoc; reflexivity).
    simpl. rewrite Hm, Hu. repeat split.
    + apply api_call_completion in H. congruence.
    + apply api_call_completion in H. congruence.
Qed.

(** ** The results page *)

Lemma lower_ascii_idempotent (c : ascii) :
  Js.lower_ascii (Js.lower_ascii c) = Js.lower_ascii c.
Proof. destruct c as [[] [] [] [] [] [] [] []]; reflexivity. Qed.

Lemma toLowerCase_idempotent (s : string) :
  Js.toLowerCase (Js.toLowerCase s) = Js.toLowerCase s.
Proof.
  induction s as [|c s IH]; simpl; [reflexivity|].
  rewrite lower_ascii_idempotent, IH. reflexivity.
Qed.

Lemma filter_none {A} (p : A -> bool) (l : list A) :
  (forall x, In x l -> p x = false) -> List.filter p l = [].
Proof.
  induction l as [|x l IH]; simpl; intros H; [reflexivity|].
  rewrite (H x) by auto. apply IH. auto.
Qed.

(** X26. The filter compares the selector as it is: a selector that is
    not in lower case (and so not "all") shows no issue at all,
    whatever the list; and with no analysis loaded the filter shows
    none for every selector, "all" and the lower-case ones included. *)
Theorem filteredIssues_mixed_case_selector (an : Analysis) (s : string) :
  (Js.toLowerCase s <> s -> Results.filteredIssues (Some an) s = [])
  /\ Results.filteredIssues None s = [].
Proof.
  split; [|reflexivity]. intros Hs.
  unfold Results.filteredIssues. apply filter_none. intros issue _.
  apply orb_false_intro.
  - apply String.eqb_neq. intros ->. apply Hs. reflexivity.
  - apply String.eqb_neq. intros Heq. apply Hs.
    rewrite <- Heq. apply toLowerCase_idempotent.
Qed.

Lemma filteredIssues_mixed_case_selector_witness :
  Results.filteredIssues
    (Some (Scenario.report [Sample.issue 1 "HIGH"; Sample.issue 2 "high"])) "HIGH" = [].
Proof.
  destruct (filteredIssues_mixed_case_selector
              (Scenario.report [Sample.issue 1 "HIGH"; Sample.issue 2 "high"]) "HIGH")
    as [H _].
  apply H. discriminate.
Defined.

(** X27. The four severity views partition the issues: the number of
    issues shown under "all" is the sum of the numbers shown under
    "critical", "high", "medium" and "low", plus the number of issues
    whose severity is none of these up to case, which only "all"
    shows. *)
Theorem severity_views_partition (an : Analysis) :
  List.length (Results.filteredIssues (Some an) "all")
  = (List.length (Results.filteredIssues (Some an) "critical")
     + List.length (Results.filteredIssues (Some an) "high")
     + List.length (Results.filteredIssues (Some an) "medium")
     + List.length (Results.filteredIssues (Some an) "low")
     + List.length (unclassified (issues an)))%nat.
Proof.
  unfold Results.filteredIssues, unclassified. simpl orb.
  rewrite filter_true.
  induction (issues an) as [|issue l IH]; [reflexivity|].
  cbn [List.filter].
  destruct (String.eqb_spec (Js.toLowerCase (severity issue)) "critical") as [E|H1];
    [rewrite ?E; simpl; lia|].
  destruct (String.eqb_spec (Js.toLowerCase (severity issue)) "high") as [E|H2];
    [rewrite ?E; simpl; lia|].
  destruct (String.eqb_spec (Js.toLowerCase (severity issue)) "medium") as [E|H3];
    [rewrite ?E; simpl; lia|].
  destruct (String.eqb_spec (Js.toLowerCase (severity issue)) "low") as [E|H4];
    [rewrite ?E; simpl; lia|].
  simpl. lia.
Qed.

Lemma filter_In_true {A} (p : A -> bool) (l : list A) (x : A) :
  In x (List.filter p l) -> p x = true.
Proof. intros H. apply filter_In in H. apply H. Qed.

(** X28. Colour and filter agree: every issue shown under one of the
    four severity selectors is drawn in the colour of that severity,
    whatever the case in which the backend wrote its severity; an issue
    whose severity is none of the four is drawn in grey. *)
Theorem severity_colour_of_view (an : Analysis) (s : string) (issue : CodeIssue) :
  In s Results.selectors -> s <> "all" ->
  In issue (Results.filteredIssues (Some an) s) ->
  ResultsPage.getSeverityColor (severity issue) = ResultsPage.getSeverityColor s
  /\ ResultsPage.getSeverityColor (severity issue)
     <> "text-gray-700 bg-gray-100 border-gray-300"
  /\ (forall other, In other (unclassified (issues an)) ->
        ResultsPage.getSeverityColor (severity other)
        = "text-gray-700 bg-gray-100 border-gray-300").
Proof.
  intros Hs Hall Hin.
  unfold Results.filteredIssues in Hin. apply filter_In_true in Hin.
  apply String.eqb_neq in Hall. rewrite Hall in Hin. simpl in Hin.
  apply String.eqb_eq in Hin.
  split; [|split].
  - unfold ResultsPage.getSeverityColor. rewrite Hin.
    simpl in Hs. destruct Hs as [<-|[<-|[<-|[<-|[<-|[]]]]]]; reflexivity.
  - unfold ResultsPage.getSeverityColor. rewrite Hin.
    simpl in Hs. destruct Hs as [<-|[<-|[<-|[<-|[<-|[]]]]]]; discriminate.
  - intros other Ho. unfold unclassified in Ho. apply filter_In_true in Ho.
    apply negb_true_iff in Ho. cbv zeta in Ho.
    apply orb_false_elim in Ho as [Ho H4].
    apply orb_false_elim in Ho as [Ho H3].
    apply orb_false_elim in Ho as [H1 H2].
    unfold ResultsPage.getSeverityColor. cbv zeta.
    rewrite H1, H2, H3, H4. reflexivity.
Qed.

Lemma severity_colour_of_view_witness :
  ResultsPage.getSeverityColor (severity (Sample.issue 1 "HIGH"))
  = ResultsPage.getSeverityColor "high".
Proof.
  destruct (severity_colour_of_view
              (Scenario.report [Sample.issue 1 "HIGH"; Sample.issue 2 "low"]) "high"
              (Sample.issue 1 "HIGH")) as [H _];
    [simpl; auto | discriminate | left; reflexivity | exact H].
Defined.

Lemma digit_in_pretty (d : N) :
  (d < 10)%N -> ResultsPage.digit_in 10 (pretty_N_char d) = Some d.
Proof.
  intros Hd.
  assert (H : (d = 0 \/ d = 1 \/ d = 2 \/ d = 3 \/ d = 4 \/ d = 5 \/ d = 6 \/ d = 7
               \/ d = 8 \/ d = 9)%N) by lia.
  repeat (destruct H as [->|H]; [reflexivity|]). subst d. reflexivity.
Qed.

Lemma digits_prefix_pretty (x : N) (s : string) :
  (0 < x)%N ->
  ResultsPage.digits_prefix 10 None (pretty_N_go x s)
  = ResultsPage.digits_prefix 10 (Some x) s.
Proof.
  revert s. induction (N.lt_wf_0 x) as [x _ IH]. intros s Hx.
  rewrite pretty_N_go_step by exact Hx.
  assert (Hmod : (x `mod` 10 < 10)%N) by (apply N.mod_lt; discriminate).
  assert (Hdm : (x = 10 * (x `div` 10) + x `mod` 10)%N) by (apply N.div_mod; discriminate).
  destruct (N.eq_dec (x `div` 10) 0) as [Hz|Hnz].
  - rewrite Hz, pretty_N_go_0. simpl. rewrite (digit_in_pretty _ Hmod).
    f_equal. f_equal. lia.
  - rewrite IH; [|apply N.div_lt; [exact Hx | reflexivity] | lia].
    simpl. rewrite (digit_in_pretty _ Hmod). f_equal. f_equal. lia.
Qed.

Lemma pretty_N_go_head (x : N) (s : string) :
  (0 < x)%N ->
  exists d r, (1 <= d <= 9)%N /\ pretty_N_go x s = String (pretty_N_char d) r.
Proof.
  revert s. induction (N.lt_wf_0 x) as [x _ IH]. intros s Hx.
  rewrite pretty_N_go_step by exact Hx.
  assert (Hmod : (x `mod` 10 < 10)%N) by (apply N.mod_lt; discriminate).
  assert (Hdm : (x = 10 * (x `div` 10) + x `mod` 10)%N) by (apply N.div_mod; discriminate).
  destruct (N.eq_dec (x `div` 10) 0) as [Hz|Hnz].
  - rewrite Hz, pretty_N_go_0. exists (x `mod` 10)%N, s. split; [lia | reflexivity].
  - apply IH; [apply N.div_lt; [exact Hx | reflexivity] | lia].
Qed.

Lemma trimStart_nonspace (c : ascii) (r : string) :
  ResultsPage.is_space c = false -> ResultsPage.trimStart (String c r) = String c r.
Proof. intros H. simpl. rewrite H. reflexivity. Qed.

Lemma parseInt_leading_digit (d : N) (r : string) :
  (1 <= d <= 9)%N ->
  ResultsPage.parseInt (String (pretty_N_char d) r)
  = match ResultsPage.digits_prefix 10 None (String (pretty_N_char d) r) with
    | Some v => Some (Z.of_N v)
    | None => None
    end
  /\ ResultsPage.parseInt (String "-" (String (pretty_N_char d) r))
     = match ResultsPage.digits_prefix 10 None (String (pretty_N_char d) r) with
       | Some v => Some (- Z.of_N v)
       | None => None
       end.
Proof.
  intros Hd.
  assert (H : (d = 1 \/ d = 2 \/ d = 3 \/ d = 4 \/ d = 5 \/ d = 6 \/ d = 7
               \/ d = 8 \/ d = 9)%N) by lia.
  assert (Hpos : forall v : N, 1 * Z.of_N v = Z.of_N v) by (intros; lia).
  assert (Hneg : forall v : N, -1 * Z.of_N v = - Z.of_N v) by (intros; lia).
  assert (Hgoal : forall c : ascii,
    ResultsPage.is_space c = false ->
    (forall r0 : string,
       match String c r0 with
       | String "-" r1 => (-1, r1)
       | String "+" r1 => (1, r1)
       | _ => (1, String c r0)
       end = (1, String c r0)) ->
    (forall r0 : string,
       match String c r0 with
       | String "0" (String "x" r1) => (16%N, r1)
       | String "0" (String "X" r1) => (16%N, r1)
       | _ => (10%N, String c r0)
       end = (10%N, String c r0)) ->
    ResultsPage.parseInt (String c r)
    = match ResultsPage.digits_prefix 10 None (String c r) with
      | Some v => Some (Z.of_N v)
      | None => None
      end
    /\ ResultsPage.parseInt (String "-" (String c r))
       = match ResultsPage.digits_prefix 10 None (String c r) with
         | Some v => Some (- Z.of_N v)
         | None => None
         end).
  { intros c Hsp Hsign Hradix. unfold ResultsPage.parseInt.
    rewrite (trimStart_nonspace c r Hsp).
    rewrite (trimStart_nonspace "-" (String c r) eq_refl).
    rewrite Hsign. cbv beta iota zeta. rewrite Hradix.
    destruct (ResultsPage.digits_prefix 10 None (String c r));
      rewrite ?Hpos, ?Hneg; split; reflexivity. }
  repeat (destruct H as [->|H]; [apply Hgoal; reflexivity|]).
  subst d. apply Hgoal; reflexivity.
Qed.

Lemma parseInt_pretty (n : Z) : ResultsPage.parseInt (Js.num_to_string n) = Some n.
Proof.
  unfold Js.num_to_string, pretty, pretty_Z.
  destruct n as [|p|p]; [reflexivity| |].
  - unfold pretty, pretty_positive, pretty, pretty_N.
    rewrite decide_False by discriminate.
    destruct (pretty_N_go_head (N.pos p) "") as (d & r & Hd & Hhead); [reflexivity|].
    assert (Hdig := digits_prefix_pretty (N.pos p) "" eq_refl).
    rewrite Hhead in *.
    destruct (parseInt_leading_digit d r Hd) as [-> _].
    rewrite Hdig. reflexivity.
  - unfold pretty, pretty_positive, pretty, pretty_N.
    rewrite decide_False by discriminate.
    destruct (pretty_N_go_head (N.pos p) "") as (d & r & Hd & Hhead); [reflexivity|].
    assert (Hdig := digits_prefix_pretty (N.pos p) "" eq_refl).
    rewrite Hhead in *.
    change ("-" +:+ String (pretty_N_char d) r)
      with (String "-" (String (pretty_N_char d) r)).
    destruct (parseInt_leading_digit d r Hd) as [_ ->].
    rewrite Hdig. reflexivity.
Qed.

Lemma loadAnalysis_run be (analysisId : string) (v : ResultsPage.ResultsView) :
  ResultsPage.loadAnalysis be analysisId v
  = (Normal tt,
     let a := ResultsPage.results_app v in
     let req := Api.request_interceptor a
                  (Api.config GET
                     ("/api/v1/analysis/"
                      +:+ match ResultsPage.parseInt analysisId with
                          | Some n => Js.num_to_string n
                          | None => "NaN"
                          end) [] None) in
     match analysis_get be (log a) req with
     | Success d =>
         ResultsPage.setLoading false
           (ResultsPage.setAnalysis (Some d)
              (ResultsPage.with_app (emit (EvRequest req true) a)
                 (ResultsPage.setLoading true v)))
     | Failure e =>
         ResultsPage.setLoading false
           (ResultsPage.setError
              (Some (Js.or_else (error_detail e) "Failed to load analysis results"))
              (ResultsPage.with_app
                 (emit (EvConsoleError "Failed to load analysis:")
                    (emit (EvRequest req false) a))
                 (ResultsPage.setLoading true v)))
     end).
Proof.
  unfold ResultsPage.loadAnalysis, View.try_finally, View.try_catch, mbind,
    View.MV_bind, View.lift, View.modify, ResultsPage.getAnalysis_number, Api.getAnalysis.
  simpl.
  destruct (ResultsPage.parseInt analysisId) as [n|]; rewrite api_call_run;
    destruct (analysis_get be _ _); reflexivity.
Qed.

(** X29. The results page follows the dashboard's navigation: given the
    [id] the trigger writes in the address, the decimal form of the
    analysis id, [parseInt] reads that id back and [loadAnalysis] sends
    one request, for that analysis.  (The bound is the range in which
    JavaScript numbers are exact integers.) *)
Theorem loadAnalysis_follows_navigation (be : Backend) (v : ResultsPage.ResultsView)
    (n : Z) :
  - 2 ^ 53 < n < 2 ^ 53 ->
  ResultsPage.parseInt (Js.num_to_string n) = Some n
  /\ map (fun r => (method r, url r))
         (sent_requests
            (new_events (ResultsPage.results_app v)
               (ResultsPage.results_app
                  (snd (ResultsPage.loadAnalysis be (Js.num_to_string n) v)))))
     = [(GET, "/api/v1/analysis/" +:+ Js.num_to_string n)].
Proof.
  intros _. split; [apply parseInt_pretty|].
  rewrite loadAnalysis_run, parseInt_pretty. cbv zeta. simpl snd.
  set (a := ResultsPage.results_app v).
  set (cfg := Api.config GET ("/api/v1/analysis/" +:+ Js.num_to_string n) [] None).
  destruct (interceptor_keeps_config a cfg) as (Hm & Hu & _).
  destruct (analysis_get be (log a) (Api.request_interceptor a cfg)).
  - simpl ResultsPage.results_app.
    rewrite (new_events_app a _ [EvRequest (Api.request_interceptor a cfg) true])
      by reflexivity.
    simpl. rewrite Hm, Hu. reflexivity.
  - simpl ResultsPage.results_app.
    rewrite (new_events_app a _ [EvRequest (Api.request_interceptor a cfg) false;
                                 EvConsoleError "Failed to load analysis:"])
      by (simpl; rewrite <- app_assoc; reflexivity).
    simpl. rewrite Hm, Hu. reflexivity.
Qed.

Lemma loadAnalysis_follows_navigation_witness :
  ResultsPage.parseInt (Js.num_to_string 7) = Some 7
  /\ map (fun r => (method r, url r))
         (sent_requests
            (new_events (Sample.signed_in "tok123")
               (ResultsPage.results_app
                  (snd (ResultsPage.loadAnalysis Scenario.github (Js.num_to_string 7)
                          (Scenario.results_page (Sample.signed_in "tok123") None))))))
     = [(GET, "/api/v1/analysis/7")].
Proof.
  apply (loadAnalysis_follows_navigation Scenario.github
           (Scenario.results_page (Sample.signed_in "tok123") None) 7).
  split; reflexivity.
Defined.

(** X30. [loadAnalysis] completes normally whatever the [id] and the
    backend's answer, and always ends with the loading flag off.  An
    answer replaces the analysis and leaves the error as it was, so an
    error of an earlier load is not cleared; a failure leaves the
    analysis as it was and sets the error to the backend's detail when
    that is non-empty, else to "Failed to load analysis results".  The
    effect that calls it does nothing without an [id], with an empty
    one, or without a user. *)
Theorem loadAnalysis_outcomes (be : Backend) (analysisId : string)
    (v : ResultsPage.ResultsView) :
  fst (ResultsPage.loadAnalysis be analysisId v) = Normal tt
  /\ ResultsPage.results_loading (snd (ResultsPage.loadAnalysis be analysisId v)) = false
  /\ (forall d,
        completion (ResultsPage.getAnalysis_number be (ResultsPage.parseInt analysisId))
          (ResultsPage.results_app v) = Normal d ->
        ResultsPage.analysis (snd (ResultsPage.loadAnalysis be analysisId v)) = Some d
        /\ ResultsPage.results_error (snd (ResultsPage.loadAnalysis be analysisId v))
           = ResultsPage.results_error v)
  /\ (forall e,
        completion (ResultsPage.getAnalysis_number be (ResultsPage.parseInt analysisId))
          (ResultsPage.results_app v) = Thrown e ->
        ResultsPage.analysis (snd (ResultsPage.loadAnalysis be analysisId v))
        = ResultsPage.analysis v
        /\ (forall msg, error_detail e = Some msg -> msg <> "" ->
              ResultsPage.results_error (snd (ResultsPage.loadAnalysis be analysisId v))
              = Some msg)
        /\ (error_detail e = None \/ error_detail e = Some "" ->
              ResultsPage.results_error (snd (ResultsPage.loadAnalysis be analysisId v))
              = Some "Failed to load analysis results"))
  /\ (forall i, i = None \/ i = Some "" \/ user (ResultsPage.results_app v) = None ->
        ResultsPage.loadEffect be i v = (Normal tt, v)).
Proof.
  rewrite loadAnalysis_run. cbv zeta. simpl fst. simpl snd.
  split; [reflexivity|].
  assert (Hcall : forall c,
    completion (ResultsPage.getAnalysis_number be (ResultsPage.parseInt analysisId))
      (ResultsPage.results_app v) = c ->
    match analysis_get be (log (ResultsPage.results_app v))
            (Api.request_interceptor (ResultsPage.results_app v)
               (Api.config GET
                  ("/api/v1/analysis/"
                   +:+ match ResultsPage.parseInt analysisId with
                       | Some n => Js.num_to_string n
                       | None => "NaN"
                       end) [] None)) with
    | Success d => c = Normal d
    | Failure e => c = Thrown e
    end).
  { intros c <-. unfold completion, ResultsPage.getAnalysis_number, Api.getAnalysis.
    destruct (ResultsPage.parseInt analysisId); rewrite api_call_run;
      destruct (analysis_get be _ _); reflexivity. }
  destruct (analysis_get be _ _) as [d0|e0] eqn:Hbe; simpl.
  - split; [reflexivity|]. split; [|split].
    + intros d Hd. apply Hcall in Hd. inversion Hd. auto.
    + intros e He. apply Hcall in He. discriminate He.
    + intros i [->|[->|Hu]]; unfold ResultsPage.loadEffect.
      * reflexivity.
      * destruct (user (ResultsPage.results_app v)); reflexivity.
      * rewrite Hu. destruct i; reflexivity.
  - split; [reflexivity|]. split; [|split].
    + intros d Hd. apply Hcall in Hd. discriminate Hd.
    + intros e He. apply Hcall in He. inversion He. subst e0.
      split; [reflexivity|]. split.
      * intros msg Hm Hne. rewrite Hm. simpl. apply truthy_spec in Hne.
        rewrite Hne. reflexivity.
      * intros [Hm|Hm]; rewrite Hm; reflexivity.
    + intros i [->|[->|Hu]]; unfold ResultsPage.loadEffect.
      * reflexivity.
      * destruct (user (ResultsPage.results_app v)); reflexivity.
      * rewrite Hu. destruct i; reflexivity.
Qed.

Lemma loadAnalysis_outcomes_witness :
  ResultsPage.results_error
    (snd (ResultsPage.loadAnalysis Scenario.github "7"
            (Scenario.results_page (Sample.signed_in "tok123") None)))
  = Some "Analysis not found".
Proof.
  destruct (loadAnalysis_outcomes Scenario.github "7"
              (Scenario.results_page (Sample.signed_in "tok123") None))
    as (_ & _ & _ & H & _).
  destruct (H (Sample.rejected "Analysis not found")) as (_ & Hmsg & _); [reflexivity|].
  apply Hmsg; [reflexivity | discriminate].
Defined.
